(** * AI course generator: controller [server/controllers/aiController.js]

    A shallow embedding of the course-generation controller of the
    e-learning server, together with the Mongoose schema of
    [server/models/AICourse.js], and the properties of the generation
    fallback pipeline and of the multi-store save sequence.

    Conventions of the embedding.
    - JavaScript strings are [string]s (sequences of 8-bit characters);
      [toLowerCase] maps the letters A-Z and leaves every other character
      unchanged, which is the lowercasing of the language on ASCII text.
      The classifier is also given over the lowercasing of the language
      itself ([determineCourseCategoryWith]).
    - JavaScript numbers that the controller computes with are integers
      ([Z]); the only division, [duration / weeksPerModule], is carried out
      in [Q] and rounded with [Qfloor] / [Qceiling] as the code does with
      [Math.floor] / [Math.ceil].
    - The request bodies are records whose fields are optional ([None] is
      an absent field) and carry the type the client sends: a topic and a
      difficulty that are strings, a duration that is an integer.  A
      request with a field of another type is outside the embedding (on a
      topic that is not a string and not falsy, the fallback of the
      generation handler throws at [courseName.toLowerCase()]).
    - Parsed JSON is a [value]; [JSON.parse] and the text-generation
      service are parameters of the adapter.
    - The record stores are a state passed through the handlers. A fault
      schedule, a parameter of the handlers, tells which store operations
      fail, whatever the cause; identifiers are drawn from a counter.
    - The schema checks the presence and the values of the fields; the
      cast of the owner id to an ObjectId is not modelled, an owner id is
      any non-empty string. *)

From Stdlib Require Import ZArith QArith Qround Ascii String DecimalString.
From stdpp Require Import base option list gmap strings.

Local Open Scope string_scope.
Local Open Scope Z_scope.

(** ** JavaScript strings *)

Module JsString.

(** [String.prototype.toLowerCase], on the letters A-Z: the lowercasing of
    the language on ASCII text. *)
Definition lower_char (c : ascii) : ascii :=
  let n := nat_of_ascii c in
  if ((65 <=? n)%nat && (n <=? 90)%nat)%bool then ascii_of_nat (n + 32) else c.

Fixpoint toLowerCase (s : string) : string :=
  match s with
  | EmptyString => EmptyString
  | String c s' => String (lower_char c) (toLowerCase s')
  end.

(** [s.includes(sub)]: [sub] occurs in [s] at some position. *)
Fixpoint includes (s sub : string) : bool :=
  String.prefix sub s ||
  match s with
  | EmptyString => false
  | String _ s' => includes s' sub
  end.

(** A template literal renders an integer number in decimal (below 1e21
    in absolute value, where the language turns to the exponent form). *)
Definition String_of_number (n : Z) : string :=
  NilEmpty.string_of_int (Z.to_int n).

End JsString.
Import JsString.

(** ** Category classifier *)

Definition determineCourseCategory (courseName : string) : string :=
  let courseLower := toLowerCase courseName in
  if includes courseLower "programming" ||
     includes courseLower "coding" ||
     includes courseLower "development" ||
     includes courseLower "javascript" ||
     includes courseLower "python" ||
     includes courseLower "java" ||
     includes courseLower "web"
  then "Programming"
  else if includes courseLower "design" ||
          includes courseLower "ui" ||
          includes courseLower "ux"
  then "Design"
  else if includes courseLower "business" ||
          includes courseLower "marketing" ||
          includes courseLower "management"
  then "Business"
  else if includes courseLower "data" ||
          includes courseLower "machine learning" ||
          includes courseLower "ai" ||
          includes courseLower "analytics"
  then "Data Science"
  else "Other".

(** The same function over the lowercasing of the language.  [toLowerCase]
    above lowercases the letters A-Z, which is what
    [String.prototype.toLowerCase] does on ASCII text; on other text the
    language follows the Unicode case mappings, which may change the
    length of the text.  Here [toLower] stands for that function, whatever
    it does.  The keywords are ASCII, so in a text encoded with ASCII
    characters as single units that occur nowhere else (UTF-8), [includes]
    finds a keyword exactly where the language finds it. *)
Section Lowercasing.

Variable toLower : string → string.

Definition determineCourseCategoryWith (courseName : string) : string :=
  let courseLower := toLower courseName in
  if includes courseLower "programming" ||
     includes courseLower "coding" ||
     includes courseLower "development" ||
     includes courseLower "javascript" ||
     includes courseLower "python" ||
     includes courseLower "java" ||
     includes courseLower "web"
  then "Programming"
  else if includes courseLower "design" ||
          includes courseLower "ui" ||
          includes courseLower "ux"
  then "Design"
  else if includes courseLower "business" ||
          includes courseLower "marketing" ||
          includes courseLower "management"
  then "Business"
  else if includes courseLower "data" ||
          includes courseLower "machine learning" ||
          includes courseLower "ai" ||
          includes courseLower "analytics"
  then "Data Science"
  else "Other".

End Lowercasing.

(** ** Deterministic outline generator *)

(** A module of a generated outline. *)
Record Module_ := mkModule {
  title : string;
  description : string;
  topics : list string;
}.

(** [arr[i]] on an array of strings; out of range the template literal
    renders [undefined]. *)
Definition index_string (arr : list string) (i : nat) : string :=
  default "undefined" (arr !! i).

Definition getModuleTitle (courseName : string) (moduleIndex : nat) : string :=
  let introTitles := ["Introduction to"; "Fundamentals of"; "Getting Started with"] in
  let intermediateTitles :=
    ["Advanced Concepts in"; "Practical Applications of"; "Deep Dive into"] in
  let advancedTitles := ["Mastering"; "Expert Techniques for"; "Professional"] in
  match moduleIndex with
  | 0%nat => index_string introTitles 0 +:+ " " +:+ courseName
  | 1%nat => index_string introTitles 2 +:+ " " +:+ courseName +:+ " Development"
  | 2%nat => index_string intermediateTitles 0 +:+ " " +:+ courseName
  | 3%nat => index_string intermediateTitles 1 +:+ " " +:+ courseName
  | _ => index_string advancedTitles 0 +:+ " " +:+ courseName
  end.

Definition beginnerTopics : list string :=
  [ "Understanding the basics";
    "Core principles and concepts";
    "Setting up your environment";
    "Your first project";
    "Best practices for beginners";
    "Common mistakes to avoid" ].

Definition intermediateTopics : list string :=
  [ "Advanced techniques";
    "Optimizing your workflow";
    "Building complex projects";
    "Integration with other systems";
    "Performance considerations";
    "Testing and debugging" ].

Definition advancedTopics : list string :=
  [ "Expert-level strategies";
    "Cutting-edge methodologies";
    "Enterprise-scale implementation";
    "Architecture and design patterns";
    "Performance optimization";
    "Advanced troubleshooting" ].

Definition generateTopics (courseName : string) (moduleIndex : nat) (difficulty : string)
  : list string :=
  let topicCount : nat :=
    if String.eqb difficulty "beginner" then 4%nat
    else if String.eqb difficulty "intermediate" then 5%nat else 6%nat in
  let topicPool :=
    if String.eqb difficulty "beginner" then beginnerTopics
    else if String.eqb difficulty "intermediate" then intermediateTopics
    else advancedTopics in
  (* for (let i = 0; i < topicCount; i++) topics.push(...) *)
  (fun i => index_string topicPool i +:+ " for " +:+ courseName) <$> seq 0 topicCount.

(** [Math.max(1, Math.floor(duration / 4))] *)
Definition weeksPerModule (duration : Z) : Z :=
  Z.max 1 (Qfloor (inject_Z duration / inject_Z 4)).

(** [Math.max(3, Math.ceil(duration / weeksPerModule))] *)
Definition moduleCount (duration : Z) : Z :=
  Z.max 3 (Qceiling (inject_Z duration / inject_Z (weeksPerModule duration))).

Definition generateMockOutline (courseName : string) (duration : Z) (difficulty : string)
  : list Module_ :=
  (fun i =>
     {| title := "Module " +:+ String_of_number (Z.of_nat i + 1) +:+ ": "
                 +:+ getModuleTitle courseName i;
        description := "This module covers essential concepts related to "
                 +:+ toLowerCase (getModuleTitle courseName i) +:+ ".";
        topics := generateTopics courseName i difficulty |})
  <$> seq 0 (Z.to_nat (moduleCount duration)).

(** ** JSON values, truthiness and exceptions *)

(** A JavaScript value as [JSON.parse] builds it (an object keeps its
    properties in order), with [undefined] for an absent property. *)
#[warnings="-register-all"]
Inductive value :=
| VUndefined
| VNull
| VBool (b : bool)
| VNum (n : Z)
| VStr (s : string)
| VArr (elems : list value)
| VObj (fields : list (string * value)).

(** JavaScript truthiness, as tested by [!x] and [x || y]. *)
Class Truthy (A : Type) := truthy : A → bool.

#[export] Instance string_truthy : Truthy string :=
  fun s => negb (String.eqb s "").
#[export] Instance number_truthy : Truthy Z :=
  fun n => negb (n =? 0).
#[export] Instance bool_truthy : Truthy bool :=
  fun b => b.
#[export] Instance option_truthy {A} `{Truthy A} : Truthy (option A) :=
  fun o => match o with None => false | Some a => truthy a end.
#[export] Instance value_truthy : Truthy value :=
  fun v =>
    match v with
    | VUndefined | VNull => false
    | VBool b => truthy b
    | VNum n => truthy n
    | VStr s => truthy s
    | VArr _ | VObj _ => true
    end.

(** What the controller can throw or catch. *)
Inductive exn :=
| Error (message : string)        (* throw new Error(message) *)
| SyntaxError                     (* JSON.parse on malformed text *)
| TypeError                       (* property of null/undefined, non-iterable *)
| ValidationError (path : string) (* Mongoose: schema validation of a path *)
| ServiceFailure.                 (* the AI service or a record store failed *)

Inductive result (A : Type) :=
| Ok (a : A)
| Throw (e : exn).
Arguments Ok {A} a.
Arguments Throw {A} e.

Definition result_bind {A B} (r : result A) (k : A → result B) : result B :=
  match r with
  | Ok a => k a
  | Throw e => Throw e
  end.

Declare Scope result_scope.
Delimit Scope result_scope with result.
Notation "'let!' x ':=' r 'in' k" := (result_bind r (fun x => k))
  (at level 10, x name, r at level 100, k at level 200) : result_scope.

(** [Array.prototype.map] with a callback that may throw. *)
Fixpoint mapM {A B} (f : A → result B) (l : list A) : result (list B) :=
  match l with
  | [] => Ok []
  | a :: l' =>
      match f a with
      | Throw e => Throw e
      | Ok b => match mapM f l' with
                | Throw e => Throw e
                | Ok bs => Ok (b :: bs)
                end
      end
  end.

(** [obj.key], for the property names the controller reads (none of them
    is a built-in property of a string, number or array). *)
Fixpoint lookup_field (key : string) (fields : list (string * value)) : value :=
  match fields with
  | [] => VUndefined
  | (k, v) :: rest => if String.eqb k key then v else lookup_field key rest
  end.

Definition getProp (key : string) (v : value) : result value :=
  match v with
  | VUndefined | VNull => Throw TypeError
  | VObj fields => Ok (lookup_field key fields)
  | _ => Ok VUndefined
  end.

Definition isArray (v : value) : bool :=
  match v with VArr _ => true | _ => false end.

(** ** Regular expressions: the fragment used by the controller *)

Module Regex.

Inductive atom :=
| Lit (c : ascii)   (* an escaped literal character *)
| AnyChar.          (* the class [\s\S] *)

Inductive item :=
| One (a : atom)    (* a  *)
| Star (a : atom).  (* a*, greedy *)

Definition accepts (a : atom) (c : ascii) : bool :=
  match a with
  | Lit c' => Ascii.eqb c' c
  | AnyChar => true
  end.

(** Backtracking match of the items at the start of [s]; the result is
    the matched text. A starred atom takes as many characters as it can
    and gives them back one at a time. *)
Fixpoint match_here (items : list item) (s : string) {struct items} : option string :=
  match items with
  | [] => Some EmptyString
  | One a :: rest =>
      match s with
      | String c s' =>
          if accepts a c then String c <$> match_here rest s' else None
      | EmptyString => None
      end
  | Star a :: rest =>
      (fix star (s : string) : option string :=
         match s with
         | String c s' =>
             if accepts a c then
               match star s' with
               | Some m => Some (String c m)
               | None => match_here rest s
               end
             else match_here rest s
         | EmptyString => match_here rest EmptyString
         end) s
  end.

(** [text.match(re)] without the [g] flag: the leftmost match, or null. *)
Fixpoint search (items : list item) (s : string) : option string :=
  match match_here items s with
  | Some m => Some m
  | None =>
      match s with
      | EmptyString => None
      | String _ s' => search items s'
      end
  end.

End Regex.

(** The pattern [/\{[\s\S]*\}/]. *)
Definition jsonPattern : list Regex.item :=
  [Regex.One (Regex.Lit "{"); Regex.Star Regex.AnyChar; Regex.One (Regex.Lit "}")].

(** [text.match(/\{[\s\S]*\}/)], giving [jsonMatch[0]]. *)
Definition extractJson (text : string) : option string :=
  Regex.search jsonPattern text.

(** ** AI generation adapter *)

Definition dq : string := String (ascii_of_nat 34) EmptyString.
Definition nl : string := String (ascii_of_nat 10) EmptyString.

Fixpoint unlines (ls : list string) : string :=
  match ls with
  | [] => EmptyString
  | [l] => l
  | l :: rest => l +:+ nl +:+ unlines rest
  end.

(** A text between double quotes. *)
Definition quoted (s : string) : string := dq +:+ s +:+ dq.

(** The prompt sent to the service. *)
Definition prompt (courseName : string) (duration : Z) (difficulty : string) : string :=
  unlines
    [ "Create a detailed course outline for a " +:+ difficulty +:+ " level course on "
        +:+ quoted courseName +:+ " that will last " +:+ String_of_number duration
        +:+ " weeks.";
      "    ";
      "    Format your response as a JSON object with the following structure:";
      "    {";
      "      " +:+ quoted "title" +:+ ": " +:+ quoted "Course title" +:+ ",";
      "      " +:+ quoted "description" +:+ ": "
        +:+ quoted "A concise but comprehensive course description (max 3 sentences)"
        +:+ ",";
      "      " +:+ quoted "duration" +:+ ": " +:+ String_of_number duration +:+ ",";
      "      " +:+ quoted "difficulty" +:+ ": " +:+ quoted difficulty +:+ ",";
      "      " +:+ quoted "category" +:+ ": "
        +:+ quoted "The most appropriate category for this course" +:+ ",";
      "      " +:+ quoted "outline" +:+ ": [";
      "        {";
      "          " +:+ quoted "title" +:+ ": " +:+ quoted "Module title" +:+ ",";
      "          " +:+ quoted "description" +:+ ": " +:+ quoted "Brief module description"
        +:+ ",";
      "          " +:+ quoted "topics" +:+ ": [" +:+ quoted "Topic 1" +:+ ", "
        +:+ quoted "Topic 2" +:+ ", " +:+ quoted "Topic 3" +:+ ", " +:+ quoted "Topic 4"
        +:+ "]";
      "        }";
      "      ]";
      "    }";
      "    ";
      "    The outline should have 3-6 modules depending on the course duration.";
      "    Each module should have 4-6 topics.";
      "    Make the content practical and focused on real-world applications.";
      "    DO NOT include any explanations outside the JSON structure.";
      "    ONLY return valid JSON that can be parsed." ].

Definition noJsonMessage : string := "Could not extract JSON from AI response".
Definition structureMessage : string := "AI response does not match expected structure".

(** The module objects built by [courseData.outline.map(...)]. *)
Definition buildModule (module : value) : result value :=
  (let! mtitle := getProp "title" module in
   let! mdescription := getProp "description" module in
   let! mtopics := getProp "topics" module in
   Ok (VObj [ ("title", mtitle);
              ("description", mdescription);
              ("topics", if isArray mtopics then mtopics else VArr []) ]))%result.

(** The part of [generateCourseWithGemini] after [JSON.parse]: the
    structure check and the returned object. *)
Definition buildCourse (courseData : value)
    (courseName : string) (duration : Z) (difficulty : string) : result value :=
  (let! ctitle := getProp "title" courseData in
   let! cdescription := getProp "description" courseData in
   let! coutline := getProp "outline" courseData in
   if negb (truthy ctitle) || negb (truthy cdescription)
      || negb (truthy coutline) || negb (isArray coutline)
   then Throw (Error structureMessage)
   else
     let! ccategory := getProp "category" courseData in
     let! modules :=
       match coutline with
       | VArr elems => mapM buildModule elems
       | _ => Throw TypeError
       end in
     Ok (VObj [ ("title", ctitle);
                ("description", cdescription);
                ("duration", VNum duration);
                ("difficulty", VStr difficulty);
                ("category", if truthy ccategory then ccategory
                             else VStr (determineCourseCategory courseName));
                ("outline", VArr modules) ]))%result.

Section Adapter.

(** The external text-generation service: the text of the response to a
    prompt, or a failure. *)
Variable generateContent : string → result string.

(** [JSON.parse]: the parsed value, or [None] for a [SyntaxError]. *)
Variable JSON_parse : string → option value.

(** The [catch] of this function logs and rethrows, which leaves the
    outcome unchanged. *)
Definition generateCourseWithGemini
    (courseName : string) (duration : Z) (difficulty : string) : result value :=
  (let! text := generateContent (prompt courseName duration difficulty) in
   match extractJson text with
   | None => Throw (Error noJsonMessage)
   | Some jsonStr =>
       match JSON_parse jsonStr with
       | None => Throw SyntaxError
       | Some courseData => buildCourse courseData courseName duration difficulty
       end
   end)%result.

End Adapter.

(** ** The fallback course *)

(** A module of the mock outline as a JSON object. *)
Definition Module_json (m : Module_) : value :=
  VObj [ ("title", VStr (title m));
         ("description", VStr (description m));
         ("topics", VArr (VStr <$> topics m)) ].

(** The description of the mock course. *)
Definition mockDescription (courseName : string) (duration : Z) (difficulty : string) : string :=
  "A comprehensive " +:+ difficulty +:+ " level course on " +:+ courseName
  +:+ " designed to be completed in " +:+ String_of_number duration +:+ " weeks.".

(** The object [mockCourse] sent when the adapter fails. *)
Definition mockCourse (courseName : string) (duration : Z) (difficulty : string) : value :=
  VObj [ ("title", VStr courseName);
         ("description", VStr (mockDescription courseName duration difficulty));
         ("duration", VNum duration);
         ("difficulty", VStr difficulty);
         ("category", VStr (determineCourseCategory courseName));
         ("outline", VArr (Module_json <$> generateMockOutline courseName duration difficulty)) ].

(** ** Request bodies and responses *)

(** Body of [POST /generate-course], with the types of the fields the
    client sends. *)
Record GenerateBody := {
  gen_courseName : option string;
  gen_duration : option Z;
  gen_difficulty : option string;
  gen_userId : option string;
}.

(** A module and a course as the client sends them to [POST /save-course]. *)
Record ModuleInput := {
  module_title : option string;
  module_description : option string;
  module_topics : option (list string);
}.

Record Course := {
  course_title : option string;
  course_description : option string;
  course_image : option string;
  course_price : option Z;
  course_duration : option Z;
  course_difficulty : option string;
  course_category : option string;
  course_outline : option (list ModuleInput);
  course_isAIGenerated : option bool;
}.

#[export] Instance Course_truthy : Truthy Course := fun _ => true.

Record SaveBody := {
  save_course : option Course;
  save_userId : option string;
}.

(** [res.status(status).json({ success, message, course, courseId })] *)
Record Response := {
  status : nat;
  success : bool;
  message : string;
  course : option value;
  courseId : option nat;
}.

Definition failure (status : nat) (message : string) : Response :=
  {| status := status; success := false; message := message;
     course := None; courseId := None |}.

(** ** Record stores *)

Record User := { name : string }.

(** An AI-course document, as the schema of [models/AICourse.js] casts it
    (the creation date and the identifiers of the sub-documents are left
    out). *)
Record AIModuleFields := {
  sub_title : string;
  sub_description : string;
  sub_topics : list string;
}.

Record AICourseFields := {
  ai_title : string;
  ai_description : string;
  ai_image : string;
  ai_price : Z;
  ai_duration : Z;
  ai_difficulty : string;
  ai_category : string;
  ai_outline : list AIModuleFields;
  ai_createdBy : string;
  ai_isAIGenerated : bool;
}.

(** The object handed to [Courses.create]. *)
Record CoursesFields := {
  c_title : option string;
  c_description : option string;
  c_image : string;
  c_price : Z;
  c_duration : option Z;
  c_category : option string;
  c_createdBy : string;
}.

(** The object handed to [Lecture.create]. *)
Record LectureFields := {
  l_title : option string;
  l_description : option string;
  l_video : string;
  l_course : nat;
}.

(** The [create] calls the controller issues. *)
Inductive Call :=
| AICourse_create_call (doc : Course) (createdBy : string)
| Courses_create_call (doc : CoursesFields)
| Lecture_create_call (doc : LectureFields).

(** The stores: the users, the three collections written by the
    controller (a document with its [_id], in order of insertion), the
    calls issued so far, the next fresh identifier and the number of store
    operations performed. *)
Record Store := {
  users : gmap string User;
  aiCourses : list (nat * AICourseFields);
  courses : list (nat * CoursesFields);
  lectures : list (nat * LectureFields);
  journal : list Call;
  nextId : nat;
  ticks : nat;
}.

Definition tick (st : Store) : Store :=
  {| users := users st; aiCourses := aiCourses st; courses := courses st;
     lectures := lectures st; journal := journal st; nextId := nextId st;
     ticks := S (ticks st) |}.

Definition record_call (c : Call) (st : Store) : Store :=
  {| users := users st; aiCourses := aiCourses st; courses := courses st;
     lectures := lectures st; journal := journal st ++ [c]; nextId := nextId st;
     ticks := ticks st |}.

Definition insert_aiCourse (doc : AICourseFields) (st : Store) : Store :=
  {| users := users st; aiCourses := aiCourses st ++ [(nextId st, doc)];
     courses := courses st; lectures := lectures st; journal := journal st;
     nextId := S (nextId st); ticks := ticks st |}.

Definition insert_course (doc : CoursesFields) (st : Store) : Store :=
  {| users := users st; aiCourses := aiCourses st;
     courses := courses st ++ [(nextId st, doc)]; lectures := lectures st;
     journal := journal st; nextId := S (nextId st); ticks := ticks st |}.

Definition insert_lecture (doc : LectureFields) (st : Store) : Store :=
  {| users := users st; aiCourses := aiCourses st; courses := courses st;
     lectures := lectures st ++ [(nextId st, doc)]; journal := journal st;
     nextId := S (nextId st); ticks := ticks st |}.

(** *** Schema of [models/AICourse.js]

    The checks of presence and of values.  [createdBy] is an ObjectId in
    the schema; here it is required, and not cast: the ids of the
    statements below are ids of users of the store. *)

Definition requiredString (path : string) (o : option string) : result string :=
  match o with
  | Some s => if truthy s then Ok s else Throw (ValidationError path)
  | None => Throw (ValidationError path)
  end.

Definition requiredNumber (path : string) (o : option Z) : result Z :=
  match o with
  | Some n => Ok n
  | None => Throw (ValidationError path)
  end.

Definition enumString (path : string) (allowed : list string) (dflt : string)
    (o : option string) : result string :=
  match o with
  | None => Ok dflt
  | Some s => if bool_decide (s ∈ allowed) then Ok s else Throw (ValidationError path)
  end.

Definition aiCourseModuleSchema (m : ModuleInput) : result AIModuleFields :=
  (let! mtitle := requiredString "outline.title" (module_title m) in
   let! mdescription := requiredString "outline.description" (module_description m) in
   let! mtopics := mapM (fun t => requiredString "outline.topics" (Some t))
                        (default [] (module_topics m)) in
   Ok {| sub_title := mtitle; sub_description := mdescription; sub_topics := mtopics |})%result.

Definition aiCourseSchema (doc : Course) (createdBy : string) : result AICourseFields :=
  (let! ctitle := requiredString "title" (course_title doc) in
   let! cdescription := requiredString "description" (course_description doc) in
   let! cduration := requiredNumber "duration" (course_duration doc) in
   let! cdifficulty := enumString "difficulty" ["beginner"; "intermediate"; "advanced"]
                         "beginner" (course_difficulty doc) in
   let! ccategory := requiredString "category" (course_category doc) in
   let! coutline := mapM aiCourseModuleSchema (default [] (course_outline doc)) in
   let! cowner := requiredString "createdBy" (Some createdBy) in
   Ok {| ai_title := ctitle;
         ai_description := cdescription;
         ai_image := default "default_course.jpg" (course_image doc);
         ai_price := default 0 (course_price doc);
         ai_duration := cduration;
         ai_difficulty := cdifficulty;
         ai_category := ccategory;
         ai_outline := coutline;
         ai_createdBy := cowner;
         ai_isAIGenerated := default true (course_isAIGenerated doc) |})%result.

(** ** Store operations: state passing with exceptions *)

Definition M (A : Type) : Type := Store → result A * Store.

Definition ret {A} (a : A) : M A := fun st => (Ok a, st).

Definition throw {A} (e : exn) : M A := fun st => (Throw e, st).

Definition bind {A B} (m : M A) (k : A → M B) : M B :=
  fun st =>
    match m st with
    | (Ok a, st') => k a st'
    | (Throw e, st') => (Throw e, st')
    end.

Declare Scope store_scope.
Delimit Scope store_scope with store.
Notation "x <~ m ;; k" := (bind m (fun x => k))
  (at level 100, m at next level, right associativity) : store_scope.
Notation "m ;;; k" := (bind m (fun _ => k))
  (at level 100, right associativity) : store_scope.

(** [for (const x of l) await body(x)] *)
Fixpoint forEach {A} (l : list A) (body : A → M unit) : M unit :=
  match l with
  | [] => ret tt
  | x :: l' => (body x ;;; forEach l' body)%store
  end.

Section Controller.

(** [faults n] tells whether the [n]-th store operation fails: the store
    is unreachable, or a collection whose schema is not part of these
    sources ([Courses], [Lecture]) rejects the document. *)
Variable faults : nat → bool.

Variable generateContent : string → result string.
Variable JSON_parse : string → option value.

(** One round trip to the store. *)
Definition storeOp {A} (op : M A) : M A :=
  fun st =>
    if faults (ticks st) then (Throw ServiceFailure, tick st) else op (tick st).

(** [User.findById(userId)]; an absent id finds nothing. *)
Definition User_findById (userId : option string) : M (option User) :=
  storeOp (fun st => (Ok (userId ≫= fun id => users st !! id), st)).

(** [AICourse.create(doc)]: the document is validated against the schema
    before it is sent to the store. The result is the new [_id]. *)
Definition AICourse_create (doc : Course) (createdBy : string) : M nat :=
  fun st =>
    let st := record_call (AICourse_create_call doc createdBy) st in
    match aiCourseSchema doc createdBy with
    | Throw e => (Throw e, tick st)
    | Ok fields => storeOp (fun st => (Ok (nextId st), insert_aiCourse fields st)) st
    end.

Definition Courses_create (doc : CoursesFields) : M nat :=
  fun st =>
    let st := record_call (Courses_create_call doc) st in
    storeOp (fun st => (Ok (nextId st), insert_course doc st)) st.

Definition Lecture_create (doc : LectureFields) : M nat :=
  fun st =>
    let st := record_call (Lecture_create_call doc) st in
    storeOp (fun st => (Ok (nextId st), insert_lecture doc st)) st.

(** The body of the outer [try] of [generateCourse]. *)
Definition generateCourse_try (body : GenerateBody) : M Response :=
  match gen_courseName body, gen_duration body, gen_difficulty body with
  | Some courseName, Some duration, Some difficulty =>
      if negb (truthy courseName) || negb (truthy duration) || negb (truthy difficulty)
      then ret (failure 400 "Please provide all required fields")
      else
        (user <~ User_findById (gen_userId body) ;;
         match user with
         | None => ret (failure 404 "User not found")
         | Some _ =>
             match generateCourseWithGemini generateContent JSON_parse
                     courseName duration difficulty with
             | Ok generatedCourse =>
                 ret {| status := 200; success := true; message := "Data Generated";
                        course := Some generatedCourse; courseId := None |}
             | Throw aiError =>
                 ret {| status := 200; success := true; message := "Data Generated";
                        course := Some (mockCourse courseName duration difficulty);
                        courseId := None |}
             end
         end)%store
  | _, _, _ => ret (failure 400 "Please provide all required fields")
  end.

Definition generateCourse (body : GenerateBody) (st : Store) : Response * Store :=
  match generateCourse_try body st with
  | (Ok res, st') => (res, st')
  | (Throw error, st') => (failure 500 "Error generating course", st')
  end.

(** [course.image || "default_course.jpg"], [course.price || 0] *)
Definition or_else {A} `{Truthy A} (o : option A) (dflt : A) : A :=
  match o with
  | Some a => if truthy a then a else dflt
  | None => dflt
  end.

(** The object literal handed to [Courses.create]. *)
Definition coursesOf (course : Course) (user : User) : CoursesFields :=
  {| c_title := course_title course;
     c_description := course_description course;
     c_image := or_else (course_image course) "default_course.jpg";
     c_price := or_else (course_price course) 0;
     c_duration := course_duration course;
     c_category := course_category course;
     c_createdBy := name user |}.

(** The object literal handed to [Lecture.create]. *)
Definition lectureOf (regularCourse : nat) (module : ModuleInput) : LectureFields :=
  {| l_title := module_title module;
     l_description := module_description module;
     l_video := "placeholder.mp4";
     l_course := regularCourse |}.

(** The body of the [try] of [saveCourse]. *)
Definition saveCourse_try (body : SaveBody) : M Response :=
  match save_course body, save_userId body with
  | Some course, Some userId =>
      if negb (truthy course) || negb (truthy userId)
      then ret (failure 400 "Please provide all required fields")
      else
        (user <~ User_findById (Some userId) ;;
         match user with
         | None => ret (failure 404 "User not found")
         | Some user =>
             aiCourse <~ AICourse_create course userId ;;
             regularCourse <~ Courses_create (coursesOf course user) ;;
             match course_outline course with
             | None => throw TypeError
             | Some outline =>
                 forEach outline (fun module =>
                   _ <~ Lecture_create (lectureOf regularCourse module) ;; ret tt)
             end ;;;
             ret {| status := 201; success := true;
                    message := "Course saved successfully";
                    course := None; courseId := Some regularCourse |}
         end)%store
  | _, _ => ret (failure 400 "Please provide all required fields")
  end.

Definition saveCourse (body : SaveBody) (st : Store) : Response * Store :=
  match saveCourse_try body st with
  | (Ok res, st') => (res, st')
  | (Throw error, st') => (failure 500 "Error saving course", st')
  end.

End Controller.

(** ** The extraction as the specification words it *)

(** The characters after an opening brace up to the brace that closes it,
    [depth] braces being open. *)
Fixpoint closeBrace (depth : nat) (s : string) : option string :=
  match s with
  | EmptyString => None
  | String c s' =>
      if Ascii.eqb c "{" then String c <$> closeBrace (S depth) s'
      else if Ascii.eqb c "}" then
        match depth with
        | 0%nat => Some (String c EmptyString)
        | S d => String c <$> closeBrace d s'
        end
      else String c <$> closeBrace depth s'
  end.

(** The first balanced [{...}] span of a text, in the words of the
    specification of the adapter: from the first opening brace to the brace
    that closes it. It is compared with [extractJson] below. *)
Fixpoint specFirstBalancedSpan (s : string) : option string :=
  match s with
  | EmptyString => None
  | String c s' =>
      if Ascii.eqb c "{" then String c <$> closeBrace 0 s'
      else specFirstBalancedSpan s'
  end.

(** ** Vocabulary of the statements *)

(** The four keyword groups, in the order the classifier tests them. *)
Definition programmingKeywords : list string :=
  ["programming"; "coding"; "development"; "javascript"; "python"; "java"; "web"].
Definition designKeywords : list string := ["design"; "ui"; "ux"].
Definition businessKeywords : list string := ["business"; "marketing"; "management"].
Definition dataScienceKeywords : list string :=
  ["data"; "machine learning"; "ai"; "analytics"].

(** [keyword] occurs in [topic] up to the case of the letters. *)
Definition occurs (keyword topic : string) : Prop :=
  ∃ pre mid post, topic = pre +:+ mid +:+ post ∧ toLowerCase mid = keyword.

(** Some keyword of the group occurs in the topic. *)
Definition matches (group : list string) (topic : string) : Prop :=
  ∃ keyword, keyword ∈ group ∧ occurs keyword topic.

Definition matchesb (group : list string) (topic : string) : bool :=
  existsb (includes (toLowerCase topic)) group.

(** Some keyword of the group is a part of the lowercased topic. *)
Definition keywordIn (group : list string) (lowered : string) : Prop :=
  ∃ keyword, keyword ∈ group ∧ ∃ pre post, lowered = pre +:+ keyword +:+ post.

Definition keywordInb (group : list string) (lowered : string) : bool :=
  existsb (includes lowered) group.

(** The topic [Uİ basics] and its lowercase [ui̇ basics] in UTF-8: the
    capital I with a dot, U+0130, becomes [i] and the combining dot
    U+0307. *)
Definition dottedTopic : string :=
  "U" +:+ String (ascii_of_nat 196) (String (ascii_of_nat 176) " basics").

Definition dottedTopicLowered : string :=
  "ui" +:+ String (ascii_of_nat 204) (String (ascii_of_nat 135) " basics").

(** Rounded-up quotient of integers. *)
Definition ceilDiv (a b : Z) : Z := (a + b - 1) / b.

(** The character [c] occurs in [s]. *)
Fixpoint contains (c : ascii) (s : string) : bool :=
  match s with
  | EmptyString => false
  | String x s' => Ascii.eqb c x || contains c s'
  end.

(** [obj.key] on a value that is neither null nor undefined. *)
Definition propOf (key : string) (v : value) : value :=
  match v with
  | VObj fields => lookup_field key fields
  | _ => VUndefined
  end.

(** The module the adapter returns for an element of the parsed outline:
    title and description as they are, topics replaced by the empty
    sequence unless they are a sequence. *)
Definition moduleOf (module : value) : value :=
  VObj [ ("title", propOf "title" module);
         ("description", propOf "description" module);
         ("topics", if isArray (propOf "topics" module)
                    then propOf "topics" module else VArr []) ].

(** The failures of the adapter, by kind. *)
Definition ParseError (e : exn) : Prop := e = Error noJsonMessage ∨ e = SyntaxError.
Definition SchemaError (e : exn) : Prop := e = Error structureMessage.

(** The topic of the worked example. *)
Definition exampleTopic : string := "Machine Learning for Beginners".

(** The state after a create call has been recorded, sent and accepted. *)
Definition afterAICourse (doc : Course) (createdBy : string) (fields : AICourseFields)
    (st : Store) : Store :=
  insert_aiCourse fields (tick (record_call (AICourse_create_call doc createdBy) st)).

Definition afterCourses (doc : CoursesFields) (st : Store) : Store :=
  insert_course doc (tick (record_call (Courses_create_call doc) st)).

Definition afterLecture (regularCourse : nat) (st : Store) (module : ModuleInput) : Store :=
  insert_lecture (lectureOf regularCourse module)
    (tick (record_call (Lecture_create_call (lectureOf regularCourse module)) st)).

(** The state after a create call has been recorded and has failed. *)
Definition afterFailed (c : Call) (st : Store) : Store :=
  tick (record_call c st).

(** The loop of [saveCourse] over the outline. *)
Definition lectureLoop (faults : nat → bool) (regularCourse : nat)
    (outline : list ModuleInput) : M unit :=
  forEach outline (fun module =>
    (_ <~ Lecture_create faults (lectureOf regularCourse module) ;; ret tt)%store).

(** The response of a successful save. *)
Definition saved (regularCourse : nat) : Response :=
  {| status := 201; success := true; message := "Course saved successfully";
     course := None; courseId := Some regularCourse |}.

(** A store with one user, and a course of two modules, for the examples. *)
Definition sampleUserId : string := "64a1f0c2e4b0a1b2c3d4e5f6".

Definition sampleOwner : User := {| name := "Ann" |}.

Definition sampleStore : Store :=
  {| users := {[ sampleUserId := sampleOwner ]};
     aiCourses := []; courses := []; lectures := []; journal := [];
     nextId := 100; ticks := 0 |}.

Definition sampleCourse : Course :=
  {| course_title := Some "Rocq";
     course_description := Some "Proofs and programs.";
     course_image := None;
     course_price := None;
     course_duration := Some 2;
     course_difficulty := Some "beginner";
     course_category := Some "Programming";
     course_outline :=
       Some [ {| module_title := Some "Module 1: Introduction to Rocq";
                 module_description := Some "First steps.";
                 module_topics := Some ["Understanding the basics for Rocq"] |};
              {| module_title := Some "Module 2: Getting Started with Rocq Development";
                 module_description := Some "Tactics.";
                 module_topics := None |} ];
     course_isAIGenerated := None |}.

(** A course with its required fields and an empty outline. *)
Definition emptyOutlineCourse : Course :=
  {| course_title := Some "Rocq";
     course_description := Some "Proofs and programs.";
     course_image := None; course_price := None;
     course_duration := Some 2; course_difficulty := None;
     course_category := Some "Programming";
     course_outline := Some []; course_isAIGenerated := None |}.

(** A course object that has an empty outline and nothing else. *)
Definition bareCourse : Course :=
  {| course_title := None; course_description := None; course_image := None;
     course_price := None; course_duration := None; course_difficulty := None;
     course_category := None; course_outline := Some [];
     course_isAIGenerated := None |}.

(** The request of the worked example, from the user of [sampleStore]. *)
Definition exampleRequest : GenerateBody :=
  {| gen_courseName := Some exampleTopic; gen_duration := Some 4;
     gen_difficulty := Some "beginner"; gen_userId := Some sampleUserId |}.

(** A request for a course, without the id of the owner. *)
Definition anonymousRequest : GenerateBody :=
  {| gen_courseName := Some "Python"; gen_duration := Some 4;
     gen_difficulty := Some "beginner"; gen_userId := None |}.

(** The pattern after its opening brace: [[\s\S]*\}]. *)
Definition closingPattern : list Regex.item :=
  [Regex.Star Regex.AnyChar; Regex.One (Regex.Lit "}")].

(** A module and a curriculum that meet the invariants of the data model. *)
Definition wellFormedModule (m : ModuleInput) : Prop :=
  (∃ t, module_title m = Some t ∧ t ≠ "")
  ∧ (∃ d, module_description m = Some d ∧ d ≠ "")
  ∧ (∀ ts, module_topics m = Some ts → Forall (fun t => t ≠ "") ts).

Definition wellFormedCurriculum (c : Course) : Prop :=
  (∃ t, course_title c = Some t ∧ t ≠ "")
  ∧ (∃ d, course_description c = Some d ∧ d ≠ "")
  ∧ (∃ n, course_duration c = Some n)
  ∧ (∀ d, course_difficulty c = Some d → d ∈ ["beginner"; "intermediate"; "advanced"])
  ∧ (∃ k, course_category c = Some k ∧ k ≠ "")
  ∧ (∀ ms, course_outline c = Some ms → Forall wellFormedModule ms).

(** [st'] holds every record of [st], in the same order. *)
Definition extends (st st' : Store) : Prop :=
  users st' = users st
  ∧ aiCourses st `prefix_of` aiCourses st'
  ∧ courses st `prefix_of` courses st'
  ∧ lectures st `prefix_of` lectures st'.

(** A store computation that only appends records. *)
Definition appendOnly {A} (m : M A) : Prop := ∀ st, extends st (snd (m st)).

(** A course whose outline is absent. *)
Definition noOutlineCourse : Course :=
  {| course_title := Some "Rocq";
     course_description := Some "Proofs and programs.";
     course_image := None; course_price := None;
     course_duration := Some 2; course_difficulty := None;
     course_category := Some "Programming";
     course_outline := None; course_isAIGenerated := None |}.

(** ** The client component [AICourse]

    The component keeps the form fields and the generated course in its
    state, asks the server for a course and falls back on its own mock
    generator when the request fails. Its helpers [determineCourseCategory],
    [getModuleTitle] and [generateTopics] are, letter for letter, those of
    the controller, and are shared here; its [generateMockOutline] is not. *)

Module Client.

(** The outline generator of the client: the titles carry no module
    number. *)
Definition generateMockOutline (courseName : string) (duration : Z) (difficulty : string)
  : list Module_ :=
  (fun i =>
     {| title := getModuleTitle courseName i;
        description := "This module covers essential concepts related to "
                 +:+ toLowerCase (getModuleTitle courseName i) +:+ ".";
        topics := generateTopics courseName i difficulty |})
  <$> seq 0 (Z.to_nat (moduleCount duration)).

Inductive Toast :=
| toast_error (message : string)
| toast_success (message : string).

(** The state of the component, with the toasts shown and the address the
    window was sent to. *)
Record State := {
  loading : bool;
  courseName : string;
  duration : Z;
  difficulty : string;
  generatedCourse : option value;
  toasts : list Toast;
  location : option string;
}.

Definition setLoading (b : bool) (ui : State) : State :=
  {| loading := b; courseName := courseName ui; duration := duration ui;
     difficulty := difficulty ui; generatedCourse := generatedCourse ui;
     toasts := toasts ui; location := location ui |}.

Definition setGeneratedCourse (c : option value) (ui : State) : State :=
  {| loading := loading ui; courseName := courseName ui; duration := duration ui;
     difficulty := difficulty ui; generatedCourse := c;
     toasts := toasts ui; location := location ui |}.

Definition toast (t : Toast) (ui : State) : State :=
  {| loading := loading ui; courseName := courseName ui; duration := duration ui;
     difficulty := difficulty ui; generatedCourse := generatedCourse ui;
     toasts := toasts ui ++ [t]; location := location ui |}.

Definition setLocation (href : string) (ui : State) : State :=
  {| loading := loading ui; courseName := courseName ui; duration := duration ui;
     difficulty := difficulty ui; generatedCourse := generatedCourse ui;
     toasts := toasts ui; location := Some href |}.

(** [axios.post]: the promise resolves with a response whose status is in
    the 2xx range, and rejects otherwise; a request that gets no response
    (network error, timeout) rejects without one. *)
Inductive Outcome :=
| Resolved (data : Response)
| Rejected (response : option Response).

Definition axios_post (reply : option Response) : Outcome :=
  match reply with
  | None => Rejected None
  | Some res =>
      if ((200 <=? status res)%nat && (status res <? 300)%nat)%bool
      then Resolved res else Rejected (Some res)
  end.

(** The mock course of the client. *)
Definition generateMockCourse (ui : State) : value :=
  VObj [ ("title", VStr (courseName ui));
         ("description",
           VStr ("A comprehensive " +:+ difficulty ui +:+ " level course on "
                 +:+ courseName ui +:+ " designed to be completed in "
                 +:+ String_of_number (duration ui) +:+ " weeks."));
         ("duration", VNum (duration ui));
         ("difficulty", VStr (difficulty ui));
         ("category", VStr (determineCourseCategory (courseName ui)));
         ("outline",
           VArr (Module_json
                   <$> generateMockOutline (courseName ui) (duration ui) (difficulty ui))) ].

(** An identifier in a template literal; the identifiers of the stores are
    counters, written in decimal. *)
Definition idString (id : option nat) : string :=
  match id with
  | Some n => NilEmpty.string_of_uint (Nat.to_uint n)
  | None => "undefined"
  end.

Section Handlers.

(** The two requests of the component, in a world [W] they may change:
    the reply of the server, if one arrives. *)
Context {W : Type}.
Variable post_generate : GenerateBody → W → option Response * W.
Variable post_save : value → string → W → option Response * W.

(** [user._id] *)
Variable userId : string.

Definition handleSubmit (ui : State) (w : W) : State * W :=
  if negb (truthy (courseName ui))
  then (toast (toast_error "Please enter a course name") ui, w)
  else
    let ui := setLoading true ui in
    let (reply, w) :=
      post_generate {| gen_courseName := Some (courseName ui);
                       gen_duration := Some (duration ui);
                       gen_difficulty := Some (difficulty ui);
                       gen_userId := Some userId |} w in
    let ui :=
      match axios_post reply with
      | Resolved data =>
          toast (toast_success "Course generated successfully!")
            (setGeneratedCourse (course data) ui)
      | Rejected apiError =>
          let fallbackCourse := generateMockCourse ui in
          toast (toast_success "Course generated successfully!")
            (setGeneratedCourse (Some fallbackCourse) ui)
      end in
    (setLoading false ui, w).

Definition handleSaveCourse (ui : State) (w : W) : State * W :=
  if negb (truthy (generatedCourse ui)) then (ui, w)
  else
    let ui := setLoading true ui in
    let (reply, w) := post_save (default VUndefined (generatedCourse ui)) userId w in
    match axios_post reply with
    | Resolved data =>
        (setLocation ("/course/" +:+ idString (courseId data))
           (setLoading false (toast (toast_success "Course saved successfully!") ui)), w)
    | Rejected response =>
        (toast (toast_error (or_else (message <$> response) "Failed to save course"))
           (setLoading false ui), w)
    end.

End Handlers.

End Client.

(** The server behind the first request of the client: the request reaches
    the controller or is lost. *)
Definition serveGenerate (reachable : bool) (faults : nat → bool)
    (generateContent : string → result string) (JSON_parse : string → option value)
    (body : GenerateBody) (st : Store) : option Response * Store :=
  if reachable then
    let (res, st') := generateCourse faults generateContent JSON_parse body st in
    (Some res, st')
  else (None, st).

(** ** The mock course as the save request carries it *)

Definition Module_input (m : Module_) : ModuleInput :=
  {| module_title := Some (title m);
     module_description := Some (description m);
     module_topics := Some (topics m) |}.

(** The fields of the mock course, read at the types of [Course]. *)
Definition mockCourseInput (courseName : string) (duration : Z) (difficulty : string)
  : Course :=
  {| course_title := Some courseName;
     course_description := Some (mockDescription courseName duration difficulty);
     course_image := None;
     course_price := None;
     course_duration := Some duration;
     course_difficulty := Some difficulty;
     course_category := Some (determineCourseCategory courseName);
     course_outline :=
       Some (Module_input <$> generateMockOutline courseName duration difficulty);
     course_isAIGenerated := None |}.

(** The JSON object of a course: the fields that are present, in order. *)
Definition optField {A} (key : string) (enc : A → value) (o : option A)
  : list (string * value) :=
  match o with
  | Some a => [(key, enc a)]
  | None => []
  end.

Definition ModuleInput_json (m : ModuleInput) : value :=
  VObj (optField "title" VStr (module_title m)
        ++ optField "description" VStr (module_description m)
        ++ optField "topics" (fun ts => VArr (VStr <$> ts)) (module_topics m)).

Definition Course_json (c : Course) : value :=
  VObj (optField "title" VStr (course_title c)
        ++ optField "description" VStr (course_description c)
        ++ optField "duration" VNum (course_duration c)
        ++ optField "difficulty" VStr (course_difficulty c)
        ++ optField "category" VStr (course_category c)
        ++ optField "outline" (fun ms => VArr (ModuleInput_json <$> ms)) (course_outline c)
        ++ optField "image" VStr (course_image c)
        ++ optField "price" VNum (course_price c)
        ++ optField "isAIGenerated" VBool (course_isAIGenerated c)).

(** ** More vocabulary *)

(** The place of a category in the order of the tests. *)
Definition categoryRank (category : string) : nat :=
  if String.eqb category "Programming" then 0
  else if String.eqb category "Design" then 1
  else if String.eqb category "Business" then 2
  else if String.eqb category "Data Science" then 3
  else 4.

(** The pool of phrases and the number of topics of a difficulty. *)
Definition topicPoolOf (difficulty : string) : list string :=
  if String.eqb difficulty "beginner" then beginnerTopics
  else if String.eqb difficulty "intermediate" then intermediateTopics
  else advancedTopics.

Definition topicCountOf (difficulty : string) : nat :=
  if String.eqb difficulty "beginner" then 4
  else if String.eqb difficulty "intermediate" then 5 else 6.

(** A required field of the generation request is missing or falsy. *)
Definition generateIncomplete (body : GenerateBody) : bool :=
  negb (truthy (gen_courseName body)) || negb (truthy (gen_duration body))
  || negb (truthy (gen_difficulty body)).

(** A required field of the save request is missing or falsy. *)
Definition saveIncomplete (body : SaveBody) : bool :=
  negb (truthy (save_course body)) || negb (truthy (save_userId body)).

(** The collections, the users and the journal of two states are the same. *)
Definition sameRecords (st st' : Store) : Prop :=
  users st' = users st ∧ aiCourses st' = aiCourses st ∧ courses st' = courses st
  ∧ lectures st' = lectures st ∧ journal st' = journal st ∧ nextId st' = nextId st.

(** A module object as the adapter returns it: title, description and a
    sequence of topics. *)
Definition adapterModule (m : value) : Prop :=
  ∃ mtitle mdescription mtopics,
    m = VObj [ ("title", mtitle); ("description", mdescription);
               ("topics", VArr mtopics) ].

(** The module [f] of a stored AI course is the module [m] of the
    course: same title and description, neither empty, and the topics of
    [m], none of them empty (no topics when [m] has none). *)
Definition storedModule (m : ModuleInput) (f : AIModuleFields) : Prop :=
  module_title m = Some (sub_title f) ∧ sub_title f ≠ ""
  ∧ module_description m = Some (sub_description f) ∧ sub_description f ≠ ""
  ∧ sub_topics f = default [] (module_topics m)
  ∧ Forall (fun t => t ≠ "") (sub_topics f).

(** * Properties *)

(** ** Strings *)

Section StringFacts.

Lemma app_cons (c : ascii) (s t : string) :
  String c s +:+ t = String c (s +:+ t).
Proof. reflexivity. Qed.

Lemma app_nil_l (s : string) : "" +:+ s = s.
Proof. reflexivity. Qed.

Lemma app_empty_r (s : string) : s +:+ "" = s.
Proof. induction s as [|c s IH]; [done | by rewrite app_cons, IH]. Qed.

Lemma app_assoc' (a b c : string) : (a +:+ b) +:+ c = a +:+ b +:+ c.
Proof. induction a as [|x a IH]; [done | by rewrite !app_cons, IH]. Qed.

Lemma prefix_spec (p s : string) :
  String.prefix p s = true ↔ ∃ t, s = p +:+ t.
Proof.
  revert s. induction p as [|a p IH]; intros s.
  - destruct s; simpl; split; eauto.
  - destruct s as [|b s]; simpl.
    + split; [done | intros [t Ht]; discriminate].
    + destruct (ascii_dec a b) as [->|Hne].
      * rewrite IH. split; intros [t Ht]; exists t;
          rewrite ?app_cons in *; congruence.
      * split; [done | intros [t Ht]; rewrite app_cons in Ht; congruence].
Qed.

Lemma includes_spec (s sub : string) :
  includes s sub = true ↔ ∃ pre post, s = pre +:+ sub +:+ post.
Proof.
  induction s as [|c s IH].
  - cbn [includes]. rewrite orb_false_r, prefix_spec. split.
    + intros [t Ht]. by exists "", t.
    + intros (pre & post & H). destruct pre; [by exists post |]. discriminate.
  - cbn [includes]. rewrite orb_true_iff, prefix_spec, IH. split.
    + intros [[t Ht] | (pre & post & Ht)].
      * by exists "", t.
      * exists (String c pre), post. by rewrite app_cons, Ht.
    + intros (pre & post & H). destruct pre as [|c' pre].
      * left. by exists post.
      * right. exists pre, post. rewrite app_cons in H. congruence.
Qed.

Lemma toLowerCase_app (a b : string) :
  toLowerCase (a +:+ b) = toLowerCase a +:+ toLowerCase b.
Proof.
  induction a as [|c a IH]; [done |].
  rewrite app_cons. cbn [toLowerCase]. by rewrite app_cons, IH.
Qed.

Lemma toLowerCase_split (s a b : string) :
  toLowerCase s = a +:+ b →
  ∃ s1 s2, s = s1 +:+ s2 ∧ toLowerCase s1 = a ∧ toLowerCase s2 = b.
Proof.
  revert s. induction a as [|x a IH]; intros s H.
  - by exists "", s.
  - rewrite app_cons in H.
    destruct s as [|c s]; cbn [toLowerCase] in H; [discriminate |].
    injection H as Hc Hs. destruct (IH _ Hs) as (s1 & s2 & -> & H1 & H2).
    exists (String c s1), s2. cbn [toLowerCase]. by rewrite Hc, H1.
Qed.

Lemma includes_occurs (keyword topic : string) :
  includes (toLowerCase topic) keyword = true ↔ occurs keyword topic.
Proof.
  rewrite includes_spec. split.
  - intros (pre & post & H).
    apply toLowerCase_split in H as (s1 & s2 & -> & H1 & H2).
    apply toLowerCase_split in H2 as (s3 & s4 & -> & H3 & H4).
    by exists s1, s3, s4.
  - intros (pre & mid & post & -> & <-).
    exists (toLowerCase pre), (toLowerCase post).
    by rewrite !toLowerCase_app.
Qed.

Lemma matchesb_spec (group : list string) (topic : string) :
  matchesb group topic = true ↔ matches group topic.
Proof.
  unfold matchesb, matches. rewrite existsb_exists. split.
  - intros (k & Hin & Hk). exists k. split; [by apply list_elem_of_In |].
    by apply includes_occurs.
  - intros (k & Hin & Hk). exists k. split; [by apply list_elem_of_In |].
    by apply includes_occurs.
Qed.

Lemma matchesb_false (group : list string) (topic : string) :
  matchesb group topic = false ↔ ¬ matches group topic.
Proof. rewrite <- matchesb_spec. by destruct (matchesb group topic). Qed.

End StringFacts.

(** ** Category classifier *)

Lemma determineCourseCategory_groups (topic : string) :
  determineCourseCategory topic =
    if matchesb programmingKeywords topic then "Programming"
    else if matchesb designKeywords topic then "Design"
    else if matchesb businessKeywords topic then "Business"
    else if matchesb dataScienceKeywords topic then "Data Science"
    else "Other".
Proof.
  unfold determineCourseCategory, matchesb, programmingKeywords, designKeywords,
    businessKeywords, dataScienceKeywords.
  cbn [existsb]. rewrite !orb_false_r, !orb_assoc. reflexivity.
Qed.

Lemma determineCourseCategory_toLowerCase (topic : string) :
  determineCourseCategory topic = determineCourseCategoryWith toLowerCase topic.
Proof. reflexivity. Qed.

Lemma keywordInb_spec (group : list string) (lowered : string) :
  keywordInb group lowered = true ↔ keywordIn group lowered.
Proof.
  unfold keywordInb, keywordIn. rewrite existsb_exists. split.
  - intros (k & Hin & Hk). exists k. split; [by apply list_elem_of_In |].
    by apply includes_spec.
  - intros (k & Hin & Hk). exists k. split; [by apply list_elem_of_In |].
    by apply includes_spec.
Qed.

Lemma keywordIn_matches (group : list string) (topic : string) :
  keywordIn group (toLowerCase topic) ↔ matches group topic.
Proof.
  unfold keywordIn, matches. split.
  - intros (k & Hin & Hk). exists k. split; [done |].
    by apply includes_occurs, includes_spec.
  - intros (k & Hin & Hk). exists k. split; [done |].
    by apply includes_spec, includes_occurs.
Qed.

Lemma determineCourseCategoryWith_groups (toLower : string → string) (topic : string) :
  determineCourseCategoryWith toLower topic =
    if keywordInb programmingKeywords (toLower topic) then "Programming"
    else if keywordInb designKeywords (toLower topic) then "Design"
    else if keywordInb businessKeywords (toLower topic) then "Business"
    else if keywordInb dataScienceKeywords (toLower topic) then "Data Science"
    else "Other".
Proof.
  unfold determineCourseCategoryWith, keywordInb, programmingKeywords, designKeywords,
    businessKeywords, dataScienceKeywords.
  cbn [existsb]. rewrite !orb_false_r, !orb_assoc. reflexivity.
Qed.

(** C7. The classifier is a total function whose result is one of the five
    categories, whatever the lowercasing of the language does to the
    topic.  The keyword groups are tried in the order Programming, Design,
    Business, Data Science on the lowercased topic; the first group with a
    keyword that is a part of the lowercased topic gives the result, and
    the result is Other exactly when no keyword of any group is a part of
    it.  Where the language lowercases the topic letter by letter from A-Z
    to a-z, as it does every ASCII topic, a keyword is a part of the
    lowercased topic exactly when it occurs in the topic up to the case of
    the letters. *)
Theorem determineCourseCategoryWith_first_match
    (toLower : string → string) (topic : string) :
  let category := determineCourseCategoryWith toLower topic in
  let lowered := toLower topic in
  let P := keywordIn programmingKeywords lowered in
  let D := keywordIn designKeywords lowered in
  let B := keywordIn businessKeywords lowered in
  let S := keywordIn dataScienceKeywords lowered in
  category ∈ ["Programming"; "Design"; "Business"; "Data Science"; "Other"]
  ∧ (category = "Programming" ↔ P)
  ∧ (category = "Design" ↔ ¬ P ∧ D)
  ∧ (category = "Business" ↔ ¬ P ∧ ¬ D ∧ B)
  ∧ (category = "Data Science" ↔ ¬ P ∧ ¬ D ∧ ¬ B ∧ S)
  ∧ (category = "Other" ↔ ¬ P ∧ ¬ D ∧ ¬ B ∧ ¬ S)
  ∧ (lowered = toLowerCase topic →
     ∀ group, keywordIn group lowered ↔ matches group topic).
Proof.
  cbv zeta. rewrite determineCourseCategoryWith_groups.
  assert (Hcase : toLower topic = toLowerCase topic →
                  ∀ group, keywordIn group (toLower topic) ↔ matches group topic).
  { intros Heq group. rewrite Heq. apply keywordIn_matches. }
  rewrite <- !keywordInb_spec.
  destruct (keywordInb programmingKeywords (toLower topic)),
           (keywordInb designKeywords (toLower topic)),
           (keywordInb businessKeywords (toLower topic)),
           (keywordInb dataScienceKeywords (toLower topic));
    (split; [repeat constructor |]; do 5 (split; [intuition (discriminate || auto) |]);
     exact Hcase).
Qed.

Lemma determineCourseCategoryWith_first_match_witness :
  determineCourseCategoryWith toLowerCase "UI Basics" = "Design"
  ∧ matches designKeywords "UI Basics".
Proof.
  pose proof (determineCourseCategoryWith_first_match toLowerCase "UI Basics")
    as (_ & _ & Hdesign & _ & _ & _ & Hcase).
  split; [reflexivity |].
  apply (Hcase eq_refl). by apply Hdesign.
Defined.

(** The capital I with a dot lowercases to two characters, the first of
    them [i]: the topic is a Design topic, one that the lowercasing of the
    letters A-Z alone does not see. *)
Example determineCourseCategoryWith_dotted (toLower : string → string) :
  toLower dottedTopic = dottedTopicLowered →
  determineCourseCategoryWith toLower dottedTopic = "Design"
  ∧ determineCourseCategory dottedTopic = "Other".
Proof.
  intros H. unfold determineCourseCategoryWith. rewrite H. split; reflexivity.
Qed.

(** ** Deterministic outline generator *)

Section Outline.

Lemma Qfloor_div (a b : Z) : Qfloor (inject_Z a / inject_Z b) = a / b.
Proof. symmetry. apply Zdiv_Qdiv. Qed.

Lemma Qceiling_div (a b : Z) :
  0 < b → Qceiling (inject_Z a / inject_Z b) = ceilDiv a b.
Proof.
  intros Hb. unfold Qceiling, ceilDiv.
  assert (Heq : (- (inject_Z a / inject_Z b) == inject_Z (- a) / inject_Z b)%Q).
  { rewrite inject_Z_opp. unfold Qdiv. ring. }
  rewrite Heq, Qfloor_div.
  apply Z.div_unique with (r := (a + b - 1) + b * ((- a) / b)).
  - left. pose proof (Z.mul_div_le (- a) b Hb).
    pose proof (Z.mul_succ_div_gt (- a) b Hb). lia.
  - lia.
Qed.

Lemma weeksPerModule_int (duration : Z) :
  weeksPerModule duration = Z.max 1 (duration / 4).
Proof. unfold weeksPerModule. by rewrite Qfloor_div. Qed.

Lemma moduleCount_int (duration : Z) :
  moduleCount duration = Z.max 3 (ceilDiv duration (Z.max 1 (duration / 4))).
Proof.
  unfold moduleCount. rewrite Qceiling_div; rewrite weeksPerModule_int; [done | lia].
Qed.

Lemma generateMockOutline_length (courseName : string) (duration : Z) (difficulty : string) :
  length (generateMockOutline courseName duration difficulty)
  = Z.to_nat (moduleCount duration).
Proof. unfold generateMockOutline. by rewrite length_fmap, length_seq. Qed.

Lemma generateMockOutline_lookup (courseName : string) (duration : Z) (difficulty : string)
    (i : nat) (m : Module_) :
  generateMockOutline courseName duration difficulty !! i = Some m →
  (i < Z.to_nat (moduleCount duration))%nat
  ∧ title m = "Module " +:+ String_of_number (Z.of_nat i + 1) +:+ ": "
              +:+ getModuleTitle courseName i
  ∧ topics m = generateTopics courseName i difficulty.
Proof.
  unfold generateMockOutline. rewrite list_lookup_fmap.
  destruct (seq 0 _ !! i) as [j|] eqn:Hj; [|done].
  apply lookup_seq in Hj as [-> Hlt]. intros [= <-]. by cbn.
Qed.

Lemma generateTopics_length (courseName : string) (i : nat) (difficulty : string) :
  length (generateTopics courseName i difficulty)
  = if String.eqb difficulty "beginner" then 4%nat
    else if String.eqb difficulty "intermediate" then 5%nat else 6%nat.
Proof. unfold generateTopics. by rewrite length_fmap, length_seq. Qed.

Lemma moduleCount_allowed (duration : Z) :
  duration ∈ [1; 2; 4; 8; 12] →
  moduleCount duration = if decide (duration < 4) then 3 else 4.
Proof.
  intros H. repeat (apply elem_of_cons in H as [-> | H]; [by vm_compute |]).
  by apply elem_of_nil in H.
Qed.

Lemma getModuleTitle_not_mastering (courseName : string) (i : nat) :
  (i < 4)%nat → getModuleTitle courseName i ≠ "Mastering " +:+ courseName.
Proof.
  intros Hi. do 4 (destruct i as [|i]; [cbv; discriminate |]). lia.
Qed.

End Outline.

(** C2. For every topic, every duration among 1, 2, 4, 8 and 12 weeks and
    every difficulty among beginner, intermediate and advanced, the outline
    has between 3 and 6 modules, their number is
    max(3, ceil(duration / max(1, floor(duration / 4)))), and every module
    has 4 topics for beginner, 5 for intermediate and 6 for advanced. *)
Theorem generateMockOutline_shape (courseName : string) (duration : Z) (difficulty : string) :
  duration ∈ [1; 2; 4; 8; 12] →
  difficulty ∈ ["beginner"; "intermediate"; "advanced"] →
  let outline := generateMockOutline courseName duration difficulty in
  (3 <= length outline <= 6)%nat
  ∧ Z.of_nat (length outline) = Z.max 3 (ceilDiv duration (Z.max 1 (duration / 4)))
  ∧ ∀ m, m ∈ outline →
      (difficulty = "beginner" → length (topics m) = 4%nat)
      ∧ (difficulty = "intermediate" → length (topics m) = 5%nat)
      ∧ (difficulty = "advanced" → length (topics m) = 6%nat).
Proof.
  intros Hd Hdiff outline. subst outline.
  rewrite generateMockOutline_length. split; [|split].
  - rewrite (moduleCount_allowed _ Hd). case_decide; simpl; lia.
  - rewrite <- moduleCount_int. rewrite (moduleCount_allowed _ Hd). case_decide; lia.
  - intros m Hm. apply list_elem_of_lookup in Hm as [i Hi].
    apply generateMockOutline_lookup in Hi as (_ & _ & ->).
    rewrite generateTopics_length.
    repeat split; intros ->; reflexivity.
Qed.

Lemma generateMockOutline_shape_witness :
  let outline := generateMockOutline "Rocq" 8 "advanced" in
  (3 <= length outline <= 6)%nat
  ∧ Z.of_nat (length outline) = Z.max 3 (ceilDiv 8 (Z.max 1 (8 / 4)))
  ∧ ∀ m, m ∈ outline →
      ("advanced" = "beginner" → length (topics m) = 4%nat)
      ∧ ("advanced" = "intermediate" → length (topics m) = 5%nat)
      ∧ ("advanced" = "advanced" → length (topics m) = 6%nat).
Proof.
  apply (generateMockOutline_shape "Rocq" 8 "advanced"); repeat constructor.
Defined.

(** C9. For every topic and difficulty and every duration among 1, 2, 4, 8
    and 12 weeks, the outline has exactly 3 modules (durations 1 and 2) or
    exactly 4 (durations 4, 8 and 12); every module index is below 4, and
    no module title is built from the template Mastering. *)
Theorem generateMockOutline_never_mastering
    (courseName : string) (duration : Z) (difficulty : string) :
  duration ∈ [1; 2; 4; 8; 12] →
  let outline := generateMockOutline courseName duration difficulty in
  (duration ∈ [1; 2] → length outline = 3%nat)
  ∧ (duration ∈ [4; 8; 12] → length outline = 4%nat)
  ∧ ∀ i m, outline !! i = Some m →
      (i < 4)%nat
      ∧ title m = "Module " +:+ String_of_number (Z.of_nat i + 1) +:+ ": "
                  +:+ getModuleTitle courseName i
      ∧ getModuleTitle courseName i ≠ "Mastering " +:+ courseName.
Proof.
  intros Hd outline. subst outline.
  rewrite generateMockOutline_length, (moduleCount_allowed _ Hd).
  split; [|split].
  - intros H. case_decide; [done |].
    repeat (apply elem_of_cons in H as [-> | H]; [lia |]). by apply elem_of_nil in H.
  - intros H. case_decide; [| done].
    repeat (apply elem_of_cons in H as [-> | H]; [lia |]). by apply elem_of_nil in H.
  - intros i m Hi. apply generateMockOutline_lookup in Hi as (Hlt & Ht & _).
    rewrite (moduleCount_allowed _ Hd) in Hlt.
    assert (i < 4)%nat by (case_decide; simpl in Hlt; lia).
    auto using getModuleTitle_not_mastering.
Qed.

Lemma generateMockOutline_never_mastering_witness :
  let outline := generateMockOutline "Rocq" 12 "intermediate" in
  (12 ∈ [1; 2] → length outline = 3%nat)
  ∧ (12 ∈ [4; 8; 12] → length outline = 4%nat)
  ∧ ∀ i m, outline !! i = Some m →
      (i < 4)%nat
      ∧ title m = "Module " +:+ String_of_number (Z.of_nat i + 1) +:+ ": "
                  +:+ getModuleTitle "Rocq" i
      ∧ getModuleTitle "Rocq" i ≠ "Mastering " +:+ "Rocq".
Proof.
  apply (generateMockOutline_never_mastering "Rocq" 12 "intermediate");
    repeat constructor.
Defined.

(** C6 (as the code has it). For the topic Machine Learning for Beginners,
    4 weeks, beginner, the service being out of reach, the answer carries
    the mock course, which has category Data Science and exactly 4
    modules, every module has exactly 4 topics, and the title of the first
    module is Module 1: Introduction to Machine Learning for Beginners. *)
Theorem fallback_example :
  ∃ fields modules,
    course (fst (generateCourse (fun _ => false) (fun _ => Throw ServiceFailure)
                   (fun _ => None) exampleRequest sampleStore))
    = Some (VObj fields)
    ∧ mockCourse exampleTopic 4 "beginner" = VObj fields
    ∧ lookup_field "category" fields = VStr "Data Science"
    ∧ lookup_field "outline" fields = VArr (Module_json <$> modules)
    ∧ modules = generateMockOutline exampleTopic 4 "beginner"
    ∧ length modules = 4%nat
    ∧ Forall (fun m => length (topics m) = 4%nat) modules
    ∧ title <$> head modules
      = Some "Module 1: Introduction to Machine Learning for Beginners".
Proof.
  eexists _, (generateMockOutline exampleTopic 4 "beginner").
  split; [by vm_compute |]. split; [by vm_compute |].
  split; [by vm_compute |]. split; [by vm_compute |]. split; [reflexivity |].
  split; [by vm_compute |]. split; [| by vm_compute].
  apply Forall_forall. intros m Hm. apply list_elem_of_lookup in Hm as [i Hi].
  apply generateMockOutline_lookup in Hi as (_ & _ & ->).
  by rewrite generateTopics_length.
Qed.

(** C6 as stated fails: the outline of the example has 4 modules, not 3,
    and the title of its first module carries the prefix Module 1. *)
Lemma fallback_example_as_stated_fails :
  length (generateMockOutline exampleTopic 4 "beginner") ≠ 3%nat
  ∧ title <$> head (generateMockOutline exampleTopic 4 "beginner")
    ≠ Some "Introduction to Machine Learning for Beginners".
Proof. split; by vm_compute. Qed.

(** ** Extraction of the JSON text *)

Section Extraction.

Import Regex.

Lemma contains_app (c : ascii) (a b : string) :
  contains c (a +:+ b) = contains c a || contains c b.
Proof.
  induction a as [|x a IH]; [done |].
  rewrite app_cons. cbn [contains]. by rewrite IH, orb_assoc.
Qed.

Lemma closing_nil : match_here closingPattern "" = None.
Proof. reflexivity. Qed.

Lemma closing_cons (c : ascii) (s : string) :
  match_here closingPattern (String c s) =
    match match_here closingPattern s with
    | Some m => Some (String c m)
    | None => if Ascii.eqb "}" c then Some (String c "") else None
    end.
Proof. reflexivity. Qed.

Lemma closing_none (s : string) :
  match_here closingPattern s = None ↔ contains "}" s = false.
Proof.
  induction s as [|c s IH]; [done |].
  rewrite closing_cons. cbn [contains]. rewrite orb_false_iff, <- IH.
  destruct (match_here closingPattern s), (Ascii.eqb "}" c);
    cbn; intuition congruence.
Qed.

(** The greedy star gives back characters down to the last closing brace. *)
Lemma closing_some (s m : string) :
  match_here closingPattern s = Some m ↔
  ∃ mid post, s = (mid +:+ "}") +:+ post ∧ m = mid +:+ "}"
              ∧ contains "}" post = false.
Proof.
  revert m. induction s as [|c s IH]; intros m.
  - rewrite closing_nil. split; [done |].
    intros (mid & post & H & _). by destruct mid.
  - rewrite closing_cons.
    destruct (match_here closingPattern s) as [m'|] eqn:Hs.
    + destruct (proj1 (IH m') eq_refl) as (mid' & post' & Hs' & Hm' & Hpost).
      split.
      * intros [= <-]. exists (String c mid'), post'.
        by rewrite !app_cons, <- Hs', <- Hm'.
      * intros (mid & post & H & -> & Hp).
        destruct mid as [|x mid].
        -- rewrite app_nil_l, app_cons, app_nil_l in H. injection H as Hc H.
           assert (Hcontra : contains "}" post = true).
           { rewrite <- H, Hs', !contains_app. cbn. by rewrite orb_true_r. }
           congruence.
        -- rewrite !app_cons in H. injection H as Hc H. subst x.
           assert (Hm : Some m' = Some (mid +:+ "}")).
           { apply IH. by exists mid, post. }
           by injection Hm as ->.
    + apply closing_none in Hs.
      assert (Hrest : ∀ mid post, s ≠ (mid +:+ "}") +:+ post).
      { intros mid post H. rewrite H, !contains_app in Hs. cbn in Hs.
        by rewrite orb_true_r in Hs. }
      destruct (Ascii.eqb "}" c) eqn:Hc.
      * apply Ascii.eqb_eq in Hc. subst c. split.
        -- intros [= <-]. by exists "", s.
        -- intros (mid & post & H & -> & Hp). destruct mid as [|x mid]; [done |].
           rewrite !app_cons in H. injection H as Hx H. by apply Hrest in H.
      * split; [done |]. intros (mid & post & H & -> & Hp).
        destruct mid as [|x mid].
        -- rewrite app_nil_l, app_cons in H. injection H as Hx _.
           subst c. by rewrite Ascii.eqb_refl in Hc.
        -- rewrite !app_cons in H. injection H as Hx H. by apply Hrest in H.
Qed.

Lemma jsonPattern_cons (c : ascii) (s : string) :
  match_here jsonPattern (String c s) =
    if Ascii.eqb "{" c then String c <$> match_here closingPattern s else None.
Proof. reflexivity. Qed.

Lemma jsonPattern_nil : match_here jsonPattern "" = None.
Proof. reflexivity. Qed.

Lemma search_cons (items : list item) (c : ascii) (s : string) :
  search items (String c s) =
    match match_here items (String c s) with
    | Some m => Some m
    | None => search items s
    end.
Proof. reflexivity. Qed.

Lemma brace_app (s : string) : "{" +:+ s = String "{" s.
Proof. reflexivity. Qed.

Lemma contains_close (mid post : string) :
  contains "}" ((mid +:+ "}") +:+ post) = true.
Proof. rewrite !contains_app. cbn. by rewrite orb_true_r. Qed.

Lemma contains_span (pre mid post : string) :
  contains "}" (pre +:+ ("{" +:+ mid +:+ "}") +:+ post) = true.
Proof.
  rewrite !contains_app.
  by destruct (contains "}" pre), (contains "}" mid), (contains "}" post).
Qed.

(** The match runs from the first opening brace of the text to its last
    closing brace. *)
Lemma extractJson_some (text span : string) :
  extractJson text = Some span ↔
  ∃ pre mid post,
    text = pre +:+ span +:+ post ∧ span = "{" +:+ mid +:+ "}"
    ∧ contains "{" pre = false ∧ contains "}" post = false.
Proof.
  unfold extractJson. revert span. induction text as [|c s IH]; intros span.
  - cbn [search]. rewrite jsonPattern_nil. split; [done |].
    intros (pre & mid & post & H & -> & _).
    rewrite brace_app in H. destruct pre; rewrite ?app_nil_l, app_cons in H; discriminate.
  - rewrite search_cons, jsonPattern_cons.
    destruct (Ascii.eqb "{" c) eqn:Hc.
    + apply Ascii.eqb_eq in Hc. subst c.
      assert (Hpre : ∀ (pre rest t : string),
                 String "{" t = pre +:+ rest → contains "{" pre = false → pre = "").
      { intros [|x pre] rest t H Hp; [done |].
        rewrite app_cons in H. injection H as Hx _. subst x. cbn in Hp. done. }
      destruct (match_here closingPattern s) as [m|] eqn:Hm;
        cbn [fmap option_fmap option_map].
      * pose proof (proj1 (closing_some _ _) Hm) as (mid & post & Hs & Hmid & Hp).
        split.
        -- intros [= <-]. exists "", mid, post.
           rewrite app_nil_l, app_cons, brace_app, Hs, Hmid. done.
        -- intros (pre & mid2 & post2 & H & -> & Hpre2 & Hpost2).
           rewrite (Hpre _ _ _ H Hpre2), app_nil_l, brace_app, app_cons in H.
           injection H as H.
           assert (Hm2 : match_here closingPattern s = Some (mid2 +:+ "}")).
           { apply closing_some. by exists mid2, post2. }
           rewrite brace_app. congruence.
      * apply closing_none in Hm. split.
        -- intros Hsome. apply IH in Hsome as (pre & mid & post & -> & -> & _).
           by rewrite contains_span in Hm.
        -- intros (pre & mid & post & H & -> & Hpre2 & _).
           rewrite (Hpre _ _ _ H Hpre2), app_nil_l, brace_app, app_cons in H.
           injection H as H. by rewrite H, contains_close in Hm.
    + rewrite IH. split.
      * intros (pre & mid & post & -> & -> & Hp & Hq).
        exists (String c pre), mid, post. rewrite app_cons. cbn [contains].
        by rewrite Hc, Hp.
      * intros (pre & mid & post & H & -> & Hp & Hq). destruct pre as [|x pre].
        -- rewrite app_nil_l, brace_app, app_cons in H. injection H as Hx _.
           subst c. by rewrite Ascii.eqb_refl in Hc.
        -- rewrite app_cons in H. injection H as Hx H. subst x.
           cbn [contains] in Hp. apply orb_false_iff in Hp as [_ Hp].
           by exists pre, mid, post.
Qed.

(** A closing brace somewhere after an opening brace is enough for a match. *)
Lemma extractJson_complete (pre mid post : string) :
  ∃ span, extractJson (pre +:+ "{" +:+ mid +:+ "}" +:+ post) = Some span.
Proof.
  unfold extractJson. induction pre as [|c pre IH].
  - rewrite app_nil_l, brace_app, search_cons, jsonPattern_cons, Ascii.eqb_refl.
    destruct (match_here closingPattern (mid +:+ "}" +:+ post)) as [m|] eqn:Hm;
      cbn [fmap option_fmap option_map]; [eauto |].
    apply closing_none in Hm. by rewrite <- app_assoc', contains_close in Hm.
  - rewrite app_cons, search_cons.
    destruct (match_here jsonPattern _); eauto.
Qed.

Lemma extractJson_none (text : string) :
  extractJson text = None ↔
  ¬ ∃ pre mid post, text = pre +:+ "{" +:+ mid +:+ "}" +:+ post.
Proof.
  split.
  - intros Hnone (pre & mid & post & ->).
    destruct (extractJson_complete pre mid post) as [span Hspan]. congruence.
  - intros Hno. destruct (extractJson text) as [span|] eqn:Hs; [| done].
    apply extractJson_some in Hs as (pre & mid & post & -> & -> & _).
    exfalso. apply Hno. exists pre, mid, post. by rewrite !app_assoc'.
Qed.

Lemma extractJson_no_brace (text : string) :
  contains "{" text = false → extractJson text = None.
Proof.
  intros Hc. apply extractJson_none. intros (pre & mid & post & ->).
  rewrite contains_app, brace_app in Hc. cbn in Hc. by rewrite orb_true_r in Hc.
Qed.

End Extraction.

(** ** AI generation adapter *)

Section AdapterFacts.

Lemma buildModule_ok (module : value) :
  module ≠ VNull → module ≠ VUndefined → buildModule module = Ok (moduleOf module).
Proof. by destruct module. Qed.

Lemma buildModule_null (module : value) :
  module = VNull ∨ module = VUndefined → buildModule module = Throw TypeError.
Proof. by intros [-> | ->]. Qed.

Lemma mapM_buildModule (elems : list value) :
  Forall (fun m => m ≠ VNull ∧ m ≠ VUndefined) elems →
  mapM buildModule elems = Ok (moduleOf <$> elems).
Proof.
  induction 1 as [|m elems [Hn Hu] _ IH]; [done |].
  cbn [mapM]. by rewrite buildModule_ok, IH.
Qed.

Lemma buildCourse_mismatch (fields : list (string * value))
    (courseName : string) (duration : Z) (difficulty : string) :
  truthy (lookup_field "title" fields) = false
  ∨ truthy (lookup_field "description" fields) = false
  ∨ isArray (lookup_field "outline" fields) = false →
  buildCourse (VObj fields) courseName duration difficulty
  = Throw (Error structureMessage).
Proof.
  unfold buildCourse. cbn [getProp result_bind].
  destruct (truthy (lookup_field "title" fields)),
           (truthy (lookup_field "description" fields)),
           (lookup_field "outline" fields);
    cbn; rewrite ?orb_true_r; intros [H | [H | H]]; done.
Qed.

Lemma buildCourse_ok (fields : list (string * value)) (elems : list value)
    (courseName : string) (duration : Z) (difficulty : string) :
  truthy (lookup_field "title" fields) = true →
  truthy (lookup_field "description" fields) = true →
  lookup_field "outline" fields = VArr elems →
  Forall (fun m => m ≠ VNull ∧ m ≠ VUndefined) elems →
  buildCourse (VObj fields) courseName duration difficulty
  = Ok (VObj [ ("title", lookup_field "title" fields);
               ("description", lookup_field "description" fields);
               ("duration", VNum duration);
               ("difficulty", VStr difficulty);
               ("category",
                 if truthy (lookup_field "category" fields)
                 then lookup_field "category" fields
                 else VStr (determineCourseCategory courseName));
               ("outline", VArr (moduleOf <$> elems)) ]).
Proof.
  intros Ht Hd Ho Helems. unfold buildCourse. cbn [getProp result_bind].
  rewrite Ht, Hd, Ho. cbn [truthy value_truthy isArray negb orb].
  by rewrite (mapM_buildModule _ Helems).
Qed.

End AdapterFacts.

(** C5 (as the code has it). When the service answers with a text, the
    adapter takes the span from the first opening brace of the text to its
    last closing brace; it fails with a parse error when there is no such
    span (in particular when the text has no opening brace) or when the
    span does not parse as JSON; it fails with a schema error when the
    title or the description of the parsed object is missing or falsy, or
    when its outline is not a sequence; otherwise, the elements of the
    outline being neither null nor undefined, it returns the curriculum:
    title and description of the parsed object, duration and difficulty of
    the request, the category of the parsed object or else the
    classifier's, and one module per element of the outline, which may be
    empty. *)
Theorem generateCourseWithGemini_outcome
    (generateContent : string → result string) (JSON_parse : string → option value)
    (courseName : string) (duration : Z) (difficulty : string) (text : string) :
  generateContent (prompt courseName duration difficulty) = Ok text →
  let outcome :=
    generateCourseWithGemini generateContent JSON_parse courseName duration difficulty in
  (∀ span, extractJson text = Some span ↔
     ∃ pre mid post,
       text = pre +:+ span +:+ post ∧ span = "{" +:+ mid +:+ "}"
       ∧ contains "{" pre = false ∧ contains "}" post = false)
  ∧ (extractJson text = None ↔
       ¬ ∃ pre mid post, text = pre +:+ "{" +:+ mid +:+ "}" +:+ post)
  ∧ (contains "{" text = false → extractJson text = None)
  ∧ (extractJson text = None → ∃ e, outcome = Throw e ∧ ParseError e)
  ∧ (∀ span, extractJson text = Some span → JSON_parse span = None →
       ∃ e, outcome = Throw e ∧ ParseError e)
  ∧ (∀ span fields,
       extractJson text = Some span → JSON_parse span = Some (VObj fields) →
       let ctitle := lookup_field "title" fields in
       let cdescription := lookup_field "description" fields in
       let coutline := lookup_field "outline" fields in
       (truthy ctitle = false ∨ truthy cdescription = false ∨ isArray coutline = false →
        ∃ e, outcome = Throw e ∧ SchemaError e)
       ∧ (∀ elems,
            truthy ctitle = true → truthy cdescription = true →
            coutline = VArr elems →
            Forall (fun m => m ≠ VNull ∧ m ≠ VUndefined) elems →
            outcome =
              Ok (VObj [ ("title", ctitle);
                         ("description", cdescription);
                         ("duration", VNum duration);
                         ("difficulty", VStr difficulty);
                         ("category",
                           if truthy (lookup_field "category" fields)
                           then lookup_field "category" fields
                           else VStr (determineCourseCategory courseName));
                         ("outline", VArr (moduleOf <$> elems)) ]))).
Proof.
  intros Htext outcome. subst outcome. unfold generateCourseWithGemini.
  rewrite Htext. cbn [result_bind].
  split; [apply extractJson_some |].
  split; [apply extractJson_none |].
  split; [apply extractJson_no_brace |].
  split; [| split].
  - intros ->. eexists. split; [reflexivity | by left].
  - intros span -> ->. eexists. split; [reflexivity | by right].
  - intros span fields -> ->. cbv zeta. split.
    + intros H. eexists. split; [by apply buildCourse_mismatch | done].
    + intros elems Ht Hd Ho Helems. by apply buildCourse_ok.
Qed.

Lemma generateCourseWithGemini_outcome_witness :
  ∃ e, generateCourseWithGemini (fun _ => Ok "Sure: {a} and {b}.") (fun _ => None)
         "Rocq" 4 "beginner" = Throw e ∧ ParseError e.
Proof.
  apply (generateCourseWithGemini_outcome
           (fun _ => Ok "Sure: {a} and {b}.") (fun _ => None)
           "Rocq" 4 "beginner" "Sure: {a} and {b}." eq_refl)
    with (span := "{a} and {b}"); reflexivity.
Defined.

(** C5 as stated fails: on a text with two brace groups the adapter takes
    the span up to the last closing brace, which is not the first balanced
    span; and a parsed object with an empty outline passes the structure
    check and is returned. *)
Lemma generateCourseWithGemini_as_stated_fails :
  extractJson "Sure: {a} and {b}." = Some "{a} and {b}"
  ∧ specFirstBalancedSpan "Sure: {a} and {b}." = Some "{a}"
  ∧ buildCourse (VObj [ ("title", VStr "X"); ("description", VStr "Y");
                        ("outline", VArr []) ]) "X" 4 "beginner"
    = Ok (VObj [ ("title", VStr "X"); ("description", VStr "Y");
                 ("duration", VNum 4); ("difficulty", VStr "beginner");
                 ("category", VStr "Other"); ("outline", VArr []) ]).
Proof. repeat split; by vm_compute. Qed.

(** ** Store operations *)

Section StoreFacts.

Variable faults : nat → bool.

Lemma User_findById_ok (userId : option string) (st : Store) :
  faults (ticks st) = false →
  User_findById faults userId st
  = (Ok (userId ≫= fun id => users st !! id), tick st).
Proof. intros H. unfold User_findById, storeOp. by rewrite H. Qed.

Lemma AICourse_create_ok (doc : Course) (createdBy : string)
    (fields : AICourseFields) (st : Store) :
  aiCourseSchema doc createdBy = Ok fields →
  faults (ticks st) = false →
  AICourse_create faults doc createdBy st
  = (Ok (nextId st), afterAICourse doc createdBy fields st).
Proof.
  intros Hs H. unfold AICourse_create, storeOp. rewrite Hs.
  cbn [ticks record_call]. by rewrite H.
Qed.

Lemma AICourse_create_invalid (doc : Course) (createdBy : string) (e : exn) (st : Store) :
  aiCourseSchema doc createdBy = Throw e →
  AICourse_create faults doc createdBy st
  = (Throw e, afterFailed (AICourse_create_call doc createdBy) st).
Proof. intros Hs. unfold AICourse_create. by rewrite Hs. Qed.

Lemma Courses_create_ok (doc : CoursesFields) (st : Store) :
  faults (ticks st) = false →
  Courses_create faults doc st = (Ok (nextId st), afterCourses doc st).
Proof.
  intros H. unfold Courses_create, storeOp. cbn [ticks record_call]. by rewrite H.
Qed.

Lemma Courses_create_fault (doc : CoursesFields) (st : Store) :
  faults (ticks st) = true →
  Courses_create faults doc st
  = (Throw ServiceFailure, afterFailed (Courses_create_call doc) st).
Proof.
  intros H. unfold Courses_create, storeOp. cbn [ticks record_call]. by rewrite H.
Qed.

Lemma Lecture_create_ok (regularCourse : nat) (module : ModuleInput) (st : Store) :
  faults (ticks st) = false →
  Lecture_create faults (lectureOf regularCourse module) st
  = (Ok (nextId st), afterLecture regularCourse st module).
Proof.
  intros H. unfold Lecture_create, storeOp. cbn [ticks record_call]. by rewrite H.
Qed.

Lemma Lecture_create_fault (doc : LectureFields) (st : Store) :
  faults (ticks st) = true →
  Lecture_create faults doc st
  = (Throw ServiceFailure, afterFailed (Lecture_create_call doc) st).
Proof.
  intros H. unfold Lecture_create, storeOp. cbn [ticks record_call]. by rewrite H.
Qed.

Lemma lectureLoop_ok (regularCourse : nat) (outline : list ModuleInput) (st : Store) :
  (∀ i, (i < length outline)%nat → faults (ticks st + i) = false) →
  lectureLoop faults regularCourse outline st
  = (Ok tt, foldl (afterLecture regularCourse) st outline).
Proof.
  revert st. induction outline as [|m outline IH]; intros st H; [done |].
  unfold lectureLoop in *. cbn [forEach]. unfold bind at 1 2.
  rewrite Lecture_create_ok by (rewrite <- (H 0%nat), Nat.add_0_r; [done | cbn; lia]).
  unfold ret at 1. cbn [foldl]. apply IH. intros i Hi.
  replace (ticks (afterLecture regularCourse st m) + i)%nat
    with (ticks st + S i)%nat by (cbn; lia).
  apply H. cbn. lia.
Qed.

Lemma lectureLoop_fault (regularCourse : nat) (outline : list ModuleInput)
    (k : nat) (module : ModuleInput) (st : Store) :
  outline !! k = Some module →
  (∀ i, (i < k)%nat → faults (ticks st + i) = false) →
  faults (ticks st + k) = true →
  lectureLoop faults regularCourse outline st
  = (Throw ServiceFailure,
     afterFailed (Lecture_create_call (lectureOf regularCourse module))
       (foldl (afterLecture regularCourse) st (take k outline))).
Proof.
  revert st k. induction outline as [|m outline IH]; intros st k Hk H Hf; [done |].
  unfold lectureLoop in *. cbn [forEach]. unfold bind at 1 2.
  destruct k as [|k].
  - injection Hk as ->. rewrite Nat.add_0_r in Hf.
    by rewrite Lecture_create_fault.
  - rewrite Lecture_create_ok by (rewrite <- (H 0%nat), Nat.add_0_r; [done | lia]).
    unfold ret at 1. cbn [take foldl]. apply IH; [done | |].
    + intros i Hi.
      replace (ticks (afterLecture regularCourse st m) + i)%nat
        with (ticks st + S i)%nat by (cbn; lia).
      apply H. lia.
    + replace (ticks (afterLecture regularCourse st m) + k)%nat
        with (ticks st + S k)%nat by (cbn; lia).
      done.
Qed.

(** What the accepted lecture writes leave in the stores. *)
Lemma foldl_afterLecture (regularCourse : nat) (outline : list ModuleInput) (st : Store) :
  let st' := foldl (afterLecture regularCourse) st outline in
  users st' = users st
  ∧ aiCourses st' = aiCourses st
  ∧ courses st' = courses st
  ∧ lectures st'
    = (lectures st
       ++ imap (fun i m => ((nextId st + i)%nat, lectureOf regularCourse m)) outline)%list
  ∧ journal st'
    = (journal st
       ++ ((fun m => Lecture_create_call (lectureOf regularCourse m)) <$> outline))%list
  ∧ nextId st' = (nextId st + length outline)%nat
  ∧ ticks st' = (ticks st + length outline)%nat.
Proof.
  revert st. induction outline as [|m outline IH]; intros st.
  - cbn. rewrite !app_nil_r, !Nat.add_0_r. done.
  - cbn [foldl]. destruct (IH (afterLecture regularCourse st m))
      as (Hu & Ha & Hc & Hl & Hj & Hn & Ht).
    cbv zeta. rewrite Hu, Ha, Hc, Hl, Hj, Hn, Ht. cbn.
    rewrite <- !app_assoc. cbn. rewrite Nat.add_0_r.
    repeat split; try lia.
    do 2 f_equal. apply imap_ext. intros i x _. cbn. f_equal. lia.
Qed.

End StoreFacts.

(** ** Saving a course *)

Section SaveFacts.

Variable faults : nat → bool.

Lemma truthy_string (s : string) : s ≠ "" → truthy s = true.
Proof.
  intros H. unfold truthy, string_truthy. by destruct (String.eqb_spec s "").
Qed.

Lemma truthy_number (n : Z) : n ≠ 0 → truthy n = true.
Proof. intros H. unfold truthy, number_truthy. by destruct (Z.eqb_spec n 0). Qed.

Variables (body : SaveBody) (st : Store) (course : Course) (userId : string)
          (owner : User) (fields : AICourseFields).

Hypothesis Hcourse : save_course body = Some course.
Hypothesis HuserId : save_userId body = Some userId.
Hypothesis Hnonempty : userId ≠ "".
Hypothesis Howner : users st !! userId = Some owner.
Hypothesis Hschema : aiCourseSchema course userId = Ok fields.
Hypothesis Hfind : faults (ticks st) = false.
Hypothesis Hai : faults (S (ticks st)) = false.

Lemma saveCourse_try_prefix :
  saveCourse_try faults body st =
    (regularCourse <~ Courses_create faults (coursesOf course owner) ;;
     match course_outline course with
     | None => throw TypeError
     | Some outline => lectureLoop faults regularCourse outline
     end ;;;
     ret (saved regularCourse))%store (afterAICourse course userId fields (tick st)).
Proof.
  unfold saveCourse_try. rewrite Hcourse, HuserId, (truthy_string _ Hnonempty).
  cbn [truthy Course_truthy negb orb]. unfold bind at 1.
  rewrite (User_findById_ok _ _ _ Hfind). cbn [mbind option_bind].
  rewrite Howner. cbv beta iota. unfold bind at 1.
  by rewrite (AICourse_create_ok faults course userId fields (tick st) Hschema Hai).
Qed.

Lemma saveCourse_success (modules : list ModuleInput) :
  course_outline course = Some modules →
  (∀ n, (n < 3 + length modules)%nat → faults (ticks st + n) = false) →
  saveCourse faults body st =
    (saved (S (nextId st)),
     foldl (afterLecture (S (nextId st)))
       (afterCourses (coursesOf course owner)
          (afterAICourse course userId fields (tick st))) modules).
Proof.
  intros Ho Hf. unfold saveCourse. rewrite saveCourse_try_prefix.
  unfold bind at 1. rewrite Courses_create_ok
    by (rewrite <- (Hf 2%nat); [f_equal; cbn; lia | lia]).
  rewrite Ho. unfold bind at 1. rewrite lectureLoop_ok; [done |].
  intros i Hi. rewrite <- (Hf (3 + i)%nat); [f_equal; cbn; lia | lia].
Qed.

Lemma saveCourse_courses_fault :
  faults (S (S (ticks st))) = true →
  saveCourse faults body st =
    (failure 500 "Error saving course",
     afterFailed (Courses_create_call (coursesOf course owner))
       (afterAICourse course userId fields (tick st))).
Proof.
  intros Hf. unfold saveCourse. rewrite saveCourse_try_prefix.
  unfold bind at 1. by rewrite Courses_create_fault.
Qed.

Lemma saveCourse_lecture_fault (modules : list ModuleInput) (k : nat) (module : ModuleInput) :
  course_outline course = Some modules →
  modules !! k = Some module →
  (∀ n, (n < 3 + k)%nat → faults (ticks st + n) = false) →
  faults (ticks st + 3 + k) = true →
  saveCourse faults body st =
    (failure 500 "Error saving course",
     afterFailed (Lecture_create_call (lectureOf (S (nextId st)) module))
       (foldl (afterLecture (S (nextId st)))
          (afterCourses (coursesOf course owner)
          (afterAICourse course userId fields (tick st))) (take k modules))).
Proof.
  intros Ho Hk Hf Hfault. unfold saveCourse. rewrite saveCourse_try_prefix.
  unfold bind at 1. rewrite Courses_create_ok
    by (rewrite <- (Hf 2%nat); [f_equal; cbn; lia | lia]).
  rewrite Ho. unfold bind at 1.
  rewrite (lectureLoop_fault faults _ _ k module); [done | done | |].
  - intros i Hi. rewrite <- (Hf (3 + i)%nat); [f_equal; cbn; lia | lia].
  - rewrite <- Hfault. f_equal. cbn. lia.
Qed.

End SaveFacts.

(** C3. For a curriculum of N modules that the AI-course schema accepts
    and an existing owner, the stores accepting the writes, the save issues
    one AI-course write (the curriculum with its owner), then one
    generic-course write (price 0 and the placeholder image when the
    curriculum has none), then N lecture writes in the order of the
    modules, each holding the identifier of the generic-course record, and
    answers 201 with that identifier. *)
Theorem saveCourse_sequence (faults : nat → bool) (body : SaveBody) (st : Store)
    (curriculum : Course) (userId : string) (owner : User)
    (fields : AICourseFields) (modules : list ModuleInput) :
  save_course body = Some curriculum →
  save_userId body = Some userId →
  userId ≠ "" →
  users st !! userId = Some owner →
  aiCourseSchema curriculum userId = Ok fields →
  course_outline curriculum = Some modules →
  (∀ n, (n < 3 + length modules)%nat → faults (ticks st + n)%nat = false) →
  let res := fst (saveCourse faults body st) in
  let st' := snd (saveCourse faults body st) in
  let regularCourse := S (nextId st) in
  let doc := coursesOf curriculum owner in
  let lecture (m : ModuleInput) :=
    {| l_title := module_title m; l_description := module_description m;
       l_video := "placeholder.mp4"; l_course := regularCourse |} in
  res = {| status := 201; success := true; message := "Course saved successfully";
           course := None; courseId := Some regularCourse |}
  ∧ journal st'
    = (journal st
       ++ AICourse_create_call curriculum userId
       :: Courses_create_call doc
       :: (Lecture_create_call ∘ lecture <$> modules))%list
  ∧ (course_price curriculum = None → c_price doc = 0)
  ∧ (course_image curriculum = None → c_image doc = "default_course.jpg")
  ∧ aiCourses st' = (aiCourses st ++ [(nextId st, fields)])%list
  ∧ courses st' = (courses st ++ [(regularCourse, doc)])%list
  ∧ lectures st'
    = (lectures st ++ imap (fun i m => ((nextId st + 2 + i)%nat, lecture m)) modules)%list.
Proof.
  intros Hc Hu Hne Ho Hs Hm Hf. cbv zeta.
  rewrite (saveCourse_success faults body st curriculum userId owner fields
             Hc Hu Hne Ho Hs) with (modules := modules); [| | | done | done].
  2: { rewrite <- (Hf 0%nat), Nat.add_0_r; [done | lia]. }
  2: { rewrite <- (Hf 1%nat); [f_equal; lia | lia]. }
  cbn [fst snd].
  destruct (foldl_afterLecture (S (nextId st)) modules
              (afterCourses (coursesOf curriculum owner)
                 (afterAICourse curriculum userId fields (tick st))))
    as (_ & Ha & Hco & Hl & Hj & _ & _).
  rewrite Ha, Hco, Hl, Hj. cbn.
  split; [done |]. split; [by rewrite <- !app_assoc |].
  split; [by intros -> |]. split; [by intros -> |].
  split; [done |]. split; [done |].
  f_equal. apply imap_ext. intros i m _. cbn. f_equal. lia.
Qed.

Lemma saveCourse_sequence_witness :
  fst (saveCourse (fun _ => false)
         {| save_course := Some sampleCourse; save_userId := Some sampleUserId |} sampleStore)
  = {| status := 201; success := true; message := "Course saved successfully";
       course := None; courseId := Some 101%nat |}.
Proof.
  refine (proj1 (saveCourse_sequence (fun _ => false)
                   {| save_course := Some sampleCourse; save_userId := Some sampleUserId |}
                   sampleStore sampleCourse sampleUserId sampleOwner _ _
                   eq_refl eq_refl _ eq_refl eq_refl eq_refl _)).
  - discriminate.
  - reflexivity.
Defined.

(** C4. When the owner is found and the AI-course record written, and a
    later write fails (the generic-course write for [j = 0], the [j]-th
    lecture write otherwise), the save answers 500 without an identifier,
    and the records written before the failure are still in the stores:
    the AI-course record, and, when a lecture write failed, the
    generic-course record and the lectures written before it. *)
Theorem saveCourse_no_rollback (faults : nat → bool) (body : SaveBody) (st : Store)
    (course : Course) (userId : string) (owner : User)
    (fields : AICourseFields) (modules : list ModuleInput) (j : nat) :
  save_course body = Some course →
  save_userId body = Some userId →
  userId ≠ "" →
  users st !! userId = Some owner →
  aiCourseSchema course userId = Ok fields →
  course_outline course = Some modules →
  (j <= length modules)%nat →
  (∀ n, (n < 2 + j)%nat → faults (ticks st + n)%nat = false) →
  faults (ticks st + 2 + j)%nat = true →
  let res := fst (saveCourse faults body st) in
  let st' := snd (saveCourse faults body st) in
  let regularCourse := S (nextId st) in
  status res = 500%nat
  ∧ success res = false
  ∧ courseId res = None
  ∧ aiCourses st' = (aiCourses st ++ [(nextId st, fields)])%list
  ∧ courses st'
    = (courses st
       ++ if decide (j = 0%nat) then [] else [(regularCourse, coursesOf course owner)])%list
  ∧ lectures st'
    = (lectures st
       ++ imap (fun i m => ((nextId st + 2 + i)%nat, lectureOf regularCourse m))
            (take (pred j) modules))%list.
Proof.
  intros Hc Hu Hne Ho Hs Hm Hj Hf Hfault. cbv zeta.
  assert (Hfind : faults (ticks st) = false).
  { rewrite <- (Hf 0%nat), Nat.add_0_r; [done | lia]. }
  assert (Hai : faults (S (ticks st)) = false).
  { rewrite <- (Hf 1%nat); [f_equal; lia | lia]. }
  destruct j as [|k].
  - rewrite (saveCourse_courses_fault faults body st course userId owner fields
               Hc Hu Hne Ho Hs Hfind Hai).
    2: { rewrite <- Hfault. f_equal. lia. }
    cbn. rewrite !app_nil_r. done.
  - destruct (lookup_lt_is_Some_2 modules k) as [m Hk]; [lia |].
    rewrite (saveCourse_lecture_fault faults body st course userId owner fields
               Hc Hu Hne Ho Hs Hfind Hai modules k m Hm Hk).
    2: { intros n Hn. apply Hf. lia. }
    2: { rewrite <- Hfault. f_equal. lia. }
    cbn [fst snd pred].
    destruct (foldl_afterLecture (S (nextId st)) (take k modules)
                (afterCourses (coursesOf course owner)
                   (afterAICourse course userId fields (tick st))))
      as (_ & Ha & Hco & Hl & _ & _ & _).
    cbn [afterFailed tick record_call aiCourses courses lectures].
    rewrite Ha, Hco, Hl. cbn.
    repeat (split; [done |]).
    f_equal. apply imap_ext. intros i x _. cbn. f_equal. lia.
Qed.

Lemma saveCourse_no_rollback_witness :
  let run := saveCourse (fun n => Nat.eqb n 4)
               {| save_course := Some sampleCourse; save_userId := Some sampleUserId |}
               sampleStore in
  status (fst run) = 500%nat
  ∧ success (fst run) = false
  ∧ courseId (fst run) = None
  ∧ length (aiCourses (snd run)) = 1%nat
  ∧ length (courses (snd run)) = 1%nat
  ∧ length (lectures (snd run)) = 1%nat.
Proof.
  pose proof (saveCourse_no_rollback (fun n => Nat.eqb n 4)
                {| save_course := Some sampleCourse; save_userId := Some sampleUserId |}
                sampleStore sampleCourse sampleUserId sampleOwner _ _ 2
                eq_refl eq_refl ltac:(discriminate) eq_refl eq_refl eq_refl
                ltac:(cbn; lia)) as H.
  cbv zeta in *.
  destruct H as (H1 & H2 & H3 & H4 & H5 & H6).
  - intros [|[|[|[|n]]]] Hn; (reflexivity || (exfalso; lia)).
  - reflexivity.
  - rewrite H1, H2, H3, H4, H5, H6. repeat split.
Defined.

(** The schema accepts a course with an empty outline as soon as its
    required paths are filled. *)
Lemma aiCourseSchema_empty_outline (course : Course) (userId : string)
    (ctitle cdescription ccategory : string) (cduration : Z) :
  userId ≠ "" →
  course_title course = Some ctitle → ctitle ≠ "" →
  course_description course = Some cdescription → cdescription ≠ "" →
  course_duration course = Some cduration →
  course_category course = Some ccategory → ccategory ≠ "" →
  (∀ d, course_difficulty course = Some d → d ∈ ["beginner"; "intermediate"; "advanced"]) →
  course_outline course = Some [] →
  aiCourseSchema course userId
  = Ok {| ai_title := ctitle;
          ai_description := cdescription;
          ai_image := default "default_course.jpg" (course_image course);
          ai_price := default 0 (course_price course);
          ai_duration := cduration;
          ai_difficulty := default "beginner" (course_difficulty course);
          ai_category := ccategory;
          ai_outline := [];
          ai_createdBy := userId;
          ai_isAIGenerated := default true (course_isAIGenerated course) |}.
Proof.
  intros Hu Ht Htne Hd Hdne Hdu Hc Hcne Hdiff Ho.
  unfold aiCourseSchema. rewrite Ht, Hd, Hdu, Hc, Ho.
  unfold requiredString, requiredNumber.
  rewrite !truthy_string by done. cbn [result_bind].
  destruct (course_difficulty course) as [d|]; cbn [enumString result_bind default];
    [rewrite bool_decide_eq_true_2 by auto |]; reflexivity.
Qed.

(** The schema rejects a course without a title. *)
Lemma aiCourseSchema_requires_title (course : Course) (userId : string) :
  course_title course = None →
  aiCourseSchema course userId = Throw (ValidationError "title").
Proof. intros Ht. unfold aiCourseSchema. by rewrite Ht. Qed.

(** C10 (as the code has it). The controller itself checks only that the
    course and the owner id are present; the schema of the AI-course
    store still requires a title, a description, a duration and a
    category, and a difficulty among the three levels when there is one.
    For an existing owner and a course that meets these requirements and
    has an empty outline, the stores accepting the writes, the save writes
    the AI-course record and the generic-course record, writes no lecture,
    and answers 201 with the identifier of the generic-course record. *)
Theorem saveCourse_empty_outline (faults : nat → bool) (body : SaveBody) (st : Store)
    (curriculum : Course) (userId : string) (owner : User)
    (ctitle cdescription ccategory : string) (cduration : Z) :
  save_course body = Some curriculum →
  save_userId body = Some userId →
  userId ≠ "" →
  users st !! userId = Some owner →
  course_title curriculum = Some ctitle → ctitle ≠ "" →
  course_description curriculum = Some cdescription → cdescription ≠ "" →
  course_duration curriculum = Some cduration →
  course_category curriculum = Some ccategory → ccategory ≠ "" →
  (∀ d, course_difficulty curriculum = Some d →
        d ∈ ["beginner"; "intermediate"; "advanced"]) →
  course_outline curriculum = Some [] →
  (∀ n, (n < 3)%nat → faults (ticks st + n)%nat = false) →
  let res := fst (saveCourse faults body st) in
  let st' := snd (saveCourse faults body st) in
  let regularCourse := S (nextId st) in
  res = {| status := 201; success := true; message := "Course saved successfully";
           course := None; courseId := Some regularCourse |}
  ∧ journal st'
    = (journal st ++ [ AICourse_create_call curriculum userId;
                       Courses_create_call (coursesOf curriculum owner) ])%list
  ∧ (∃ fields, aiCourses st' = (aiCourses st ++ [(nextId st, fields)])%list
               ∧ ai_title fields = ctitle ∧ ai_outline fields = [])
  ∧ courses st' = (courses st ++ [(regularCourse, coursesOf curriculum owner)])%list
  ∧ lectures st' = lectures st.
Proof.
  intros Hc Hu Hne Ho Ht Htne Hd Hdne Hdu Hcat Hcne Hdiff Hout Hf. cbv zeta.
  pose proof (aiCourseSchema_empty_outline curriculum userId _ _ _ _
                Hne Ht Htne Hd Hdne Hdu Hcat Hcne Hdiff Hout) as Hs.
  rewrite (saveCourse_success faults body st curriculum userId owner _
             Hc Hu Hne Ho Hs) with (modules := []); [| | | done | done].
  2: { rewrite <- (Hf 0%nat), Nat.add_0_r; [done | lia]. }
  2: { rewrite <- (Hf 1%nat); [f_equal; lia | lia]. }
  cbn. rewrite <- !app_assoc. repeat split; eauto.
Qed.

Lemma saveCourse_empty_outline_witness :
  fst (saveCourse (fun _ => false)
         {| save_course := Some emptyOutlineCourse; save_userId := Some sampleUserId |}
         sampleStore)
  = {| status := 201; success := true; message := "Course saved successfully";
       course := None; courseId := Some 101%nat |}.
Proof.
  refine (proj1 (saveCourse_empty_outline (fun _ => false)
                   {| save_course := Some emptyOutlineCourse;
                      save_userId := Some sampleUserId |}
                   sampleStore emptyOutlineCourse sampleUserId
                   sampleOwner "Rocq" "Proofs and programs." "Programming" 2
                   eq_refl eq_refl _ eq_refl eq_refl _ eq_refl _ eq_refl eq_refl _ _
                   eq_refl _)); try discriminate; reflexivity.
Defined.

(** C10 as stated fails: for an existing owner and a course object that
    has an empty outline and no title, the AI-course store rejects the
    document, the save answers 500 and no record is written. *)
Lemma saveCourse_empty_outline_as_stated_fails :
  let run := saveCourse (fun _ => false)
               {| save_course := Some bareCourse; save_userId := Some sampleUserId |}
               sampleStore in
  users sampleStore !! sampleUserId = Some sampleOwner
  ∧ course_outline bareCourse = Some []
  ∧ status (fst run) = 500%nat
  ∧ aiCourses (snd run) = []
  ∧ courses (snd run) = [].
Proof. repeat split; by vm_compute. Qed.

(** ** Generating a course *)

Section GenerateFacts.

Variable faults : nat → bool.
Variable generateContent : string → result string.
Variable JSON_parse : string → option value.

Variables (body : GenerateBody) (st : Store)
          (courseName : string) (duration : Z) (difficulty : string).

Hypothesis HcourseName : gen_courseName body = Some courseName.
Hypothesis Hduration : gen_duration body = Some duration.
Hypothesis Hdifficulty : gen_difficulty body = Some difficulty.
Hypothesis Hname : courseName ≠ "".
Hypothesis Hweeks : duration ≠ 0.
Hypothesis Hlevel : difficulty ≠ "".
Hypothesis Hfind : faults (ticks st) = false.

(** A request with its three fields reaches the lookup of the owner. *)
Lemma generateCourse_lookup :
  generateCourse faults generateContent JSON_parse body st =
    match gen_userId body ≫= (fun id => users st !! id) with
    | None => (failure 404 "User not found", tick st)
    | Some _ =>
        match generateCourseWithGemini generateContent JSON_parse
                courseName duration difficulty with
        | Ok generatedCourse =>
            ({| status := 200; success := true; message := "Data Generated";
                course := Some generatedCourse; courseId := None |}, tick st)
        | Throw _ =>
            ({| status := 200; success := true; message := "Data Generated";
                course := Some (mockCourse courseName duration difficulty);
                courseId := None |}, tick st)
        end
    end.
Proof.
  unfold generateCourse, generateCourse_try.
  rewrite HcourseName, Hduration, Hdifficulty.
  rewrite !truthy_string, truthy_number by done. cbn [negb orb].
  unfold bind. rewrite (User_findById_ok _ _ _ Hfind).
  destruct (gen_userId body ≫= _); [| done].
  by destruct (generateCourseWithGemini _ _ _ _ _).
Qed.

End GenerateFacts.

(** C1. For a request with a non-empty topic, a duration, a difficulty and
    an existing owner, whatever the failure of the adapter, the generation
    answers 200 with a curriculum whose description is the template filled
    with the difficulty, the topic and the duration, whose category is the
    classifier's result for the topic and whose modules are the outline of
    the deterministic generator; the failure does not reach the caller,
    and nothing is written. *)
Theorem generateCourse_fallback (faults : nat → bool)
    (generateContent : string → result string) (JSON_parse : string → option value)
    (body : GenerateBody) (st : Store)
    (courseName : string) (duration : Z) (difficulty userId : string)
    (owner : User) (e : exn) :
  gen_courseName body = Some courseName → courseName ≠ "" →
  gen_duration body = Some duration → duration ≠ 0 →
  gen_difficulty body = Some difficulty → difficulty ≠ "" →
  gen_userId body = Some userId → users st !! userId = Some owner →
  faults (ticks st) = false →
  generateCourseWithGemini generateContent JSON_parse courseName duration difficulty
  = Throw e →
  let res := fst (generateCourse faults generateContent JSON_parse body st) in
  let st' := snd (generateCourse faults generateContent JSON_parse body st) in
  status res = 200%nat
  ∧ success res = true
  ∧ course res
    = Some (VObj
        [ ("title", VStr courseName);
          ("description",
            VStr ("A comprehensive " +:+ difficulty +:+ " level course on "
                  +:+ courseName +:+ " designed to be completed in "
                  +:+ String_of_number duration +:+ " weeks."));
          ("duration", VNum duration);
          ("difficulty", VStr difficulty);
          ("category", VStr (determineCourseCategory courseName));
          ("outline",
            VArr (Module_json <$> generateMockOutline courseName duration difficulty)) ])
  ∧ aiCourses st' = aiCourses st
  ∧ courses st' = courses st
  ∧ lectures st' = lectures st
  ∧ journal st' = journal st.
Proof.
  intros Hc Hcn Hd Hdn Hf Hfn Hu Ho Hfind He. cbv zeta.
  rewrite (generateCourse_lookup faults generateContent JSON_parse body st
             courseName duration difficulty Hc Hd Hf Hcn Hdn Hfn Hfind).
  rewrite Hu. cbn [mbind option_bind]. rewrite Ho, He. by cbn.
Qed.

Lemma generateCourse_fallback_witness :
  status (fst (generateCourse (fun _ => false) (fun _ => Throw ServiceFailure)
                 (fun _ => None)
                 {| gen_courseName := Some exampleTopic; gen_duration := Some 4;
                    gen_difficulty := Some "beginner"; gen_userId := Some sampleUserId |}
                 sampleStore))
  = 200%nat.
Proof.
  refine (proj1 (generateCourse_fallback (fun _ => false)
                   (fun _ => Throw ServiceFailure) (fun _ => None)
                   {| gen_courseName := Some exampleTopic; gen_duration := Some 4;
                      gen_difficulty := Some "beginner"; gen_userId := Some sampleUserId |}
                   sampleStore exampleTopic 4 "beginner" sampleUserId sampleOwner
                   ServiceFailure
                   eq_refl _ eq_refl _ eq_refl _ eq_refl eq_refl eq_refl eq_refl));
    discriminate.
Defined.

(** ** Rejection of invalid requests *)

(** Generation: a missing or falsy topic, duration or difficulty is
    answered 400, and the stores are not touched. *)
Lemma generateCourse_missing_field (faults : nat → bool)
    (generateContent : string → result string) (JSON_parse : string → option value)
    (body : GenerateBody) (st : Store) :
  truthy (gen_courseName body) = false
  ∨ truthy (gen_duration body) = false
  ∨ truthy (gen_difficulty body) = false →
  generateCourse faults generateContent JSON_parse body st
  = (failure 400 "Please provide all required fields", st).
Proof.
  unfold generateCourse, generateCourse_try.
  destruct (gen_courseName body) as [c|], (gen_duration body) as [d|],
    (gen_difficulty body) as [f|]; cbn [truthy option_truthy];
    try (intros _; reflexivity); try (intros [H | [H | H]]; discriminate).
  intros H.
  assert (Hor : negb (truthy c) || negb (truthy d) || negb (truthy f) = true).
  { destruct H as [-> | [-> | ->]]; cbn; by rewrite ?orb_true_r. }
  by rewrite Hor.
Qed.

(** Saving: a missing course or owner id is answered 400, and the stores
    are not touched. *)
Lemma saveCourse_missing_field (faults : nat → bool) (body : SaveBody) (st : Store) :
  truthy (save_course body) = false ∨ truthy (save_userId body) = false →
  saveCourse faults body st = (failure 400 "Please provide all required fields", st).
Proof.
  unfold saveCourse, saveCourse_try.
  destruct (save_course body) as [c|], (save_userId body) as [u|];
    cbn [truthy option_truthy Course_truthy];
    try (intros _; reflexivity); try (intros [H | H]; discriminate).
  intros [H | H]; [discriminate |]. cbn [negb orb]. by rewrite H.
Qed.

(** Saving: an owner id that finds no user is answered 404, and no create
    call is issued. *)
Lemma saveCourse_unknown_owner (faults : nat → bool) (body : SaveBody) (st : Store)
    (course : Course) (userId : string) :
  save_course body = Some course →
  save_userId body = Some userId → userId ≠ "" →
  users st !! userId = None →
  faults (ticks st) = false →
  saveCourse faults body st = (failure 404 "User not found", tick st).
Proof.
  intros Hc Hu Hne Hno Hf. unfold saveCourse, saveCourse_try.
  rewrite Hc, Hu, (truthy_string _ Hne). cbn [truthy Course_truthy negb orb].
  unfold bind. rewrite (User_findById_ok _ _ _ Hf). cbn [mbind option_bind].
  by rewrite Hno.
Qed.

(** Generation: an owner id that finds no user is answered 404. *)
Lemma generateCourse_unknown_owner (faults : nat → bool)
    (generateContent : string → result string) (JSON_parse : string → option value)
    (body : GenerateBody) (st : Store)
    (courseName : string) (duration : Z) (difficulty userId : string) :
  gen_courseName body = Some courseName → courseName ≠ "" →
  gen_duration body = Some duration → duration ≠ 0 →
  gen_difficulty body = Some difficulty → difficulty ≠ "" →
  gen_userId body = Some userId → users st !! userId = None →
  faults (ticks st) = false →
  generateCourse faults generateContent JSON_parse body st
  = (failure 404 "User not found", tick st).
Proof.
  intros Hc Hcn Hd Hdn Hf Hfn Hu Hno Hfind.
  rewrite (generateCourse_lookup faults generateContent JSON_parse body st
             courseName duration difficulty Hc Hd Hf Hcn Hdn Hfn Hfind).
  rewrite Hu. cbn [mbind option_bind]. by rewrite Hno.
Qed.

(** Generation: a request without an owner id, its other fields filled, is
    answered 404 when the store answers the lookup. *)
Lemma generateCourse_absent_userId (faults : nat → bool)
    (generateContent : string → result string) (JSON_parse : string → option value)
    (body : GenerateBody) (st : Store)
    (courseName : string) (duration : Z) (difficulty : string) :
  gen_courseName body = Some courseName → courseName ≠ "" →
  gen_duration body = Some duration → duration ≠ 0 →
  gen_difficulty body = Some difficulty → difficulty ≠ "" →
  gen_userId body = None →
  faults (ticks st) = false →
  generateCourse faults generateContent JSON_parse body st
  = (failure 404 "User not found", tick st).
Proof.
  intros Hc Hcn Hd Hdn Hf Hfn Hu Hfind.
  rewrite (generateCourse_lookup faults generateContent JSON_parse body st
             courseName duration difficulty Hc Hd Hf Hcn Hdn Hfn Hfind).
  by rewrite Hu.
Qed.

(** C8, at the request where the code departs from it. The generation
    request for Python, 4 weeks, beginner, without an owner id, is never
    answered 400: the owner is looked up with the absent id, and the
    answer is 404 (no user found), or 500 when the lookup fails. *)
Theorem generateCourse_missing_userId (faults : nat → bool)
    (generateContent : string → result string) (JSON_parse : string → option value)
    (st : Store) :
  let res := fst (generateCourse faults generateContent JSON_parse anonymousRequest st) in
  status res ≠ 400%nat
  ∧ ((faults (ticks st) = false ∧ res = failure 404 "User not found")
     ∨ (faults (ticks st) = true ∧ res = failure 500 "Error generating course")).
Proof.
  cbv zeta. destruct (faults (ticks st)) eqn:Hf.
  - unfold generateCourse, generateCourse_try. cbn. unfold bind, User_findById, storeOp.
    rewrite Hf. cbn. split; [done | by right].
  - rewrite (generateCourse_absent_userId faults generateContent JSON_parse
               anonymousRequest st "Python" 4 "beginner") by done.
    cbn. split; [done | by left].
Qed.

(** ** The curricula of the data model pass the schema *)

Section Schema.

Lemma requiredString_ok (path s : string) : s ≠ "" → requiredString path (Some s) = Ok s.
Proof. intros H. unfold requiredString. by rewrite truthy_string. Qed.

Lemma mapM_requiredString (path : string) (ts : list string) :
  Forall (fun t => t ≠ "") ts →
  mapM (fun t => requiredString path (Some t)) ts = Ok ts.
Proof.
  induction 1 as [|t ts Ht _ IH]; [done |].
  cbn [mapM]. by rewrite requiredString_ok, IH.
Qed.

Lemma aiCourseModuleSchema_accepts (m : ModuleInput) :
  wellFormedModule m → ∃ fields, aiCourseModuleSchema m = Ok fields.
Proof.
  intros ((t & Ht & Htne) & (d & Hd & Hdne) & Htopics).
  unfold aiCourseModuleSchema. rewrite Ht, Hd, !requiredString_ok by done.
  cbn [result_bind]. rewrite mapM_requiredString; [by eexists |].
  destruct (module_topics m) as [ts|]; [by apply Htopics | constructor].
Qed.

Lemma mapM_aiCourseModuleSchema (ms : list ModuleInput) :
  Forall wellFormedModule ms →
  ∃ docs, mapM aiCourseModuleSchema ms = Ok docs ∧ length docs = length ms.
Proof.
  induction 1 as [|m ms Hm _ (docs & IH & Hlen)]; [by exists [] |].
  destruct (aiCourseModuleSchema_accepts m Hm) as [fields Hfields].
  exists (fields :: docs). cbn [mapM]. rewrite Hfields, IH. cbn. by rewrite Hlen.
Qed.

Lemma aiCourseSchema_accepts (c : Course) (userId : string) :
  userId ≠ "" → wellFormedCurriculum c →
  ∃ fields, aiCourseSchema c userId = Ok fields.
Proof.
  intros Hu ((t & Ht & Htne) & (d & Hd & Hdne) & (n & Hn) & Hdiff
             & (k & Hk & Hkne) & Hout).
  unfold aiCourseSchema. rewrite Ht, Hd, Hn, Hk, !requiredString_ok by done.
  cbn [requiredNumber result_bind].
  assert (∃ level, enumString "difficulty"
                    ["beginner"; "intermediate"; "advanced"] "beginner"
                    (course_difficulty c) = Ok level) as [level ->].
  { destruct (course_difficulty c) as [x|]; cbn [enumString]; [| by eexists].
    rewrite bool_decide_eq_true_2 by auto. by eexists. }
  cbn [result_bind].
  destruct (mapM_aiCourseModuleSchema (default [] (course_outline c)))
    as (docs & -> & _).
  { destruct (course_outline c) as [ms|]; [by apply Hout | constructor]. }
  by eexists.
Qed.

End Schema.

(** ** Records are only appended *)

Section AppendOnly.

Variable faults : nat → bool.

Lemma extends_refl (st : Store) : extends st st.
Proof. by repeat split. Qed.

Lemma extends_trans (st1 st2 st3 : Store) :
  extends st1 st2 → extends st2 st3 → extends st1 st3.
Proof.
  intros (Hu & Ha & Hc & Hl) (Hu' & Ha' & Hc' & Hl').
  repeat split; [congruence | by etrans..].
Qed.

Lemma appendOnly_ret {A} (a : A) : appendOnly (ret a).
Proof. intros st. apply extends_refl. Qed.

Lemma appendOnly_throw {A} (e : exn) : appendOnly (throw (A := A) e).
Proof. intros st. apply extends_refl. Qed.

Lemma appendOnly_bind {A B} (m : M A) (k : A → M B) :
  appendOnly m → (∀ a, appendOnly (k a)) → appendOnly (bind m k).
Proof.
  intros Hm Hk st. unfold bind. specialize (Hm st).
  destruct (m st) as [[a | e] st']; cbn in *; [| done].
  eapply extends_trans; [done | apply Hk].
Qed.

Lemma appendOnly_findById (userId : option string) :
  appendOnly (User_findById faults userId).
Proof.
  intros st. unfold User_findById, storeOp.
  destruct (faults (ticks st)); by repeat split.
Qed.

Lemma appendOnly_AICourse_create (doc : Course) (createdBy : string) :
  appendOnly (AICourse_create faults doc createdBy).
Proof.
  intros st. unfold AICourse_create, storeOp.
  destruct (aiCourseSchema doc createdBy); cbn [ticks record_call];
    [destruct (faults (ticks st)) |]; cbn;
    repeat split; (done || by apply prefix_app_r).
Qed.

Lemma appendOnly_Courses_create (doc : CoursesFields) :
  appendOnly (Courses_create faults doc).
Proof.
  intros st. unfold Courses_create, storeOp. cbn [ticks record_call].
  destruct (faults (ticks st)); cbn; repeat split; (done || by apply prefix_app_r).
Qed.

Lemma appendOnly_Lecture_create (doc : LectureFields) :
  appendOnly (Lecture_create faults doc).
Proof.
  intros st. unfold Lecture_create, storeOp. cbn [ticks record_call].
  destruct (faults (ticks st)); cbn; repeat split; (done || by apply prefix_app_r).
Qed.

Lemma appendOnly_forEach {A} (l : list A) (body : A → M unit) :
  (∀ a, appendOnly (body a)) → appendOnly (forEach l body).
Proof.
  intros Hbody. induction l as [|a l IH]; cbn [forEach].
  - apply appendOnly_ret.
  - apply appendOnly_bind; [done | by intros _].
Qed.

#[local] Hint Resolve appendOnly_ret appendOnly_throw appendOnly_findById
  appendOnly_AICourse_create appendOnly_Courses_create
  appendOnly_Lecture_create : core.

Lemma appendOnly_saveCourse_try (body : SaveBody) :
  appendOnly (saveCourse_try faults body).
Proof.
  unfold saveCourse_try.
  destruct (save_course body) as [course|], (save_userId body) as [userId|]; auto.
  destruct (negb (truthy course) || negb (truthy userId)); auto.
  apply appendOnly_bind; [auto |]. intros [user|]; [| auto].
  apply appendOnly_bind; [auto |]. intros aiCourse.
  apply appendOnly_bind; [auto |]. intros regularCourse.
  apply appendOnly_bind; [| auto].
  destruct (course_outline course) as [outline|]; [| auto].
  apply appendOnly_forEach. intros module. apply appendOnly_bind; auto.
Qed.

(** X18. Whatever the request and whatever fails, a save removes no
    record and touches no user: every record of the three collections
    before the save is still there after it, in the same order. *)
Lemma saveCourse_only_appends (body : SaveBody) (st : Store) :
  extends st (snd (saveCourse faults body st)).
Proof.
  unfold saveCourse. pose proof (appendOnly_saveCourse_try body st) as H.
  by destruct (saveCourse_try faults body st) as [[res | e] st'].
Qed.

End AppendOnly.

(** ** Examples *)

(** Prose around the JSON text is dropped. *)
Example extractJson_prose :
  extractJson "Here is your course: {x} Enjoy!" = Some "{x}".
Proof. reflexivity. Qed.

Example extractJson_no_json : extractJson "Sorry, no course today." = None.
Proof. reflexivity. Qed.

(** A topic with keywords of two groups falls in the group tested first. *)
Example category_web_design : determineCourseCategory "Web Design" = "Programming".
Proof. reflexivity. Qed.

(** The keywords are matched inside words too. *)
Example category_building : determineCourseCategory "Building Bridges" = "Design".
Proof. reflexivity. Qed.

(** Outside the durations the form offers, the outline can be longer than
    six modules, and the last title template is reached. *)
Example outline_seven_weeks :
  moduleCount 7 = 7
  ∧ title <$> generateMockOutline "Rocq" 7 "beginner" !! 4%nat
    = Some "Module 5: Mastering Rocq".
Proof. split; by vm_compute. Qed.

(** A course without an outline is answered 500 once its two records are
    written. *)
Example saveCourse_without_outline :
  let run := saveCourse (fun _ => false)
               {| save_course := Some noOutlineCourse; save_userId := Some sampleUserId |}
               sampleStore in
  status (fst run) = 500%nat
  ∧ length (aiCourses (snd run)) = 1%nat
  ∧ length (courses (snd run)) = 1%nat
  ∧ lectures (snd run) = [].
Proof. repeat split; by vm_compute. Qed.

(** A null element in the parsed outline makes the adapter throw, which
    sends the handler to the mock course like any other failure. *)
Example buildCourse_null_module :
  buildCourse (VObj [ ("title", VStr "X"); ("description", VStr "Y");
                      ("outline", VArr [VNull]) ]) "X" 4 "beginner"
  = Throw TypeError.
Proof. reflexivity. Qed.

(** * Further properties of the generator, the adapter and the handlers *)

(** ** The outline generator on every duration *)

Lemma moduleCount_range (duration : Z) :
  1 <= weeksPerModule duration ∧ 3 <= moduleCount duration <= 7.
Proof.
  rewrite moduleCount_int, weeksPerModule_int. unfold ceilDiv.
  pose proof (Z.mul_succ_div_gt duration 4 eq_refl) as Hq.
  split; [lia |]. split; [lia |].
  apply Z.max_lub; [lia |].
  apply Z.lt_succ_r. apply Z.div_lt_upper_bound; lia.
Qed.

(** X1. Whatever the duration (zero, negative and large ones included),
    the divisor [weeksPerModule] is at least 1 and the outline has between
    3 and 7 modules. *)
Theorem generateMockOutline_bounds (courseName : string) (duration : Z) (difficulty : string) :
  1 <= weeksPerModule duration
  ∧ 3 <= moduleCount duration <= 7
  ∧ (3 <= length (generateMockOutline courseName duration difficulty) <= 7)%nat.
Proof.
  destruct (moduleCount_range duration) as (Hw & Hm).
  rewrite generateMockOutline_length. repeat split; lia.
Qed.

Lemma generateTopics_take (courseName : string) (i : nat) (difficulty : string) :
  generateTopics courseName i difficulty
  = (fun phrase => phrase +:+ " for " +:+ courseName)
      <$> take (topicCountOf difficulty) (topicPoolOf difficulty).
Proof.
  unfold generateTopics, topicCountOf, topicPoolOf.
  destruct (String.eqb difficulty "beginner"); [reflexivity |].
  destruct (String.eqb difficulty "intermediate"); reflexivity.
Qed.

(** X2. Every module of an outline gets the same topics: the first 4, 5 or
    6 phrases of the pool of the difficulty, each followed by the topic of
    the course; a difficulty that is neither beginner nor intermediate
    gets the 6 phrases of the advanced pool; the pool is never read past
    its end. *)
Theorem generateMockOutline_topics (courseName : string) (duration : Z) (difficulty : string) :
  Forall (fun m =>
            topics m
            = (fun phrase => phrase +:+ " for " +:+ courseName)
                <$> take (topicCountOf difficulty) (topicPoolOf difficulty))
         (generateMockOutline courseName duration difficulty)
  ∧ (topicCountOf difficulty <= length (topicPoolOf difficulty))%nat
  ∧ (difficulty = "beginner" ∨ difficulty = "intermediate"
     ∨ topicPoolOf difficulty = advancedTopics ∧ topicCountOf difficulty = 6%nat).
Proof.
  split; [| split].
  - apply Forall_forall. intros m Hm. apply list_elem_of_lookup in Hm as [i Hi].
    apply generateMockOutline_lookup in Hi as (_ & _ & ->).
    apply generateTopics_take.
  - unfold topicCountOf, topicPoolOf.
    destruct (String.eqb difficulty "beginner"); [cbn; lia |].
    destruct (String.eqb difficulty "intermediate"); cbn; lia.
  - unfold topicCountOf, topicPoolOf.
    destruct (String.eqb_spec difficulty "beginner"); [by left |].
    destruct (String.eqb_spec difficulty "intermediate"); [by right; left |].
    by right; right.
Qed.

Lemma moduleTitle_inj (courseName : string) (i j : nat) :
  (i < 7)%nat → (j < 7)%nat →
  "Module " +:+ String_of_number (Z.of_nat i + 1) +:+ ": " +:+ getModuleTitle courseName i
  = "Module " +:+ String_of_number (Z.of_nat j + 1) +:+ ": " +:+ getModuleTitle courseName j →
  i = j.
Proof.
  intros Hi Hj.
  destruct i as [|[|[|[|[|[|[|i]]]]]]]; try lia;
    destruct j as [|[|[|[|[|[|[|j]]]]]]]; try lia;
    try reflexivity; cbv; intros H; discriminate H.
Qed.

(** X3. The titles of the modules of an outline of the controller are
    pairwise distinct, whatever the topic, the duration and the
    difficulty. *)
Theorem generateMockOutline_titles_distinct
    (courseName : string) (duration : Z) (difficulty : string) :
  NoDup (title <$> generateMockOutline courseName duration difficulty).
Proof.
  unfold generateMockOutline. rewrite <- list_fmap_compose.
  apply NoDup_fmap_2_strong; [| apply NoDup_seq].
  intros i j Hi Hj Heq.
  apply elem_of_seq in Hi, Hj.
  destruct (moduleCount_range duration) as (_ & _ & Hmax).
  apply (moduleTitle_inj courseName); [lia | lia | exact Heq].
Qed.

(** ** The classifier under longer topics *)

Lemma occurs_extend (keyword topic pre post : string) :
  occurs keyword topic → occurs keyword (pre +:+ topic +:+ post).
Proof.
  intros (a & mid & b & -> & Hmid).
  exists (pre +:+ a), mid, (b +:+ post). split; [| done].
  by rewrite !app_assoc'.
Qed.

Lemma matchesb_extend (group : list string) (topic pre post : string) :
  matchesb group topic = true → matchesb group (pre +:+ topic +:+ post) = true.
Proof.
  rewrite !matchesb_spec. intros (k & Hk & Ho).
  exists k. split; [done | by apply occurs_extend].
Qed.

(** X4. Text added before or after a topic can only move it to a group
    that is tested earlier: the place of the category of the longer topic
    in the order Programming, Design, Business, Data Science, Other is at
    most that of the category of the topic. *)
Theorem determineCourseCategory_extend (topic pre post : string) :
  (categoryRank (determineCourseCategory (pre +:+ topic +:+ post))
   <= categoryRank (determineCourseCategory topic))%nat.
Proof.
  rewrite !determineCourseCategory_groups.
  pose proof (matchesb_extend programmingKeywords topic pre post) as HP.
  pose proof (matchesb_extend designKeywords topic pre post) as HD.
  pose proof (matchesb_extend businessKeywords topic pre post) as HB.
  pose proof (matchesb_extend dataScienceKeywords topic pre post) as HS.
  destruct (matchesb programmingKeywords topic),
           (matchesb designKeywords topic),
           (matchesb businessKeywords topic),
           (matchesb dataScienceKeywords topic);
    rewrite ?(HP eq_refl), ?(HD eq_refl), ?(HB eq_refl), ?(HS eq_refl);
    destruct (matchesb programmingKeywords (pre +:+ topic +:+ post)),
             (matchesb designKeywords (pre +:+ topic +:+ post)),
             (matchesb businessKeywords (pre +:+ topic +:+ post)),
             (matchesb dataScienceKeywords (pre +:+ topic +:+ post));
    vm_compute; lia.
Qed.

(** ** The extracted text *)

(** A text that is one brace group, nested groups included, is taken whole. *)
Lemma extractJson_object (mid : string) :
  extractJson ("{" +:+ mid +:+ "}") = Some ("{" +:+ mid +:+ "}").
Proof.
  apply extractJson_some. exists "", mid, "".
  by rewrite app_nil_l, app_empty_r.
Qed.

(** X5. The extraction is idempotent: a text the adapter has extracted
    starts with an opening brace, ends with a closing brace, and is
    extracted whole when it is searched again. *)
Theorem extractJson_idempotent (text span : string) :
  extractJson text = Some span →
  extractJson span = Some span ∧ ∃ mid, span = "{" +:+ mid +:+ "}".
Proof.
  intros H. apply extractJson_some in H as (pre & mid & post & _ & -> & _).
  split; [apply extractJson_object | by exists mid].
Qed.

Lemma extractJson_idempotent_witness :
  extractJson "{a} and {b}" = Some "{a} and {b}"
  ∧ ∃ mid, "{a} and {b}" = "{" +:+ mid +:+ "}".
Proof.
  apply (extractJson_idempotent "Sure: {a} and {b}." "{a} and {b}"). reflexivity.
Defined.

(** ** The two mock generators *)

(** X6. The outlines of the controller and of the client have the same
    length, and differ in their titles only: the title of a module of the
    controller is the title of the same module of the client after the
    words Module, the number of the module and a colon. *)
Theorem generateMockOutline_client (courseName : string) (duration : Z) (difficulty : string) :
  length (generateMockOutline courseName duration difficulty)
  = length (Client.generateMockOutline courseName duration difficulty)
  ∧ ∀ i m, generateMockOutline courseName duration difficulty !! i = Some m →
      ∃ m', Client.generateMockOutline courseName duration difficulty !! i = Some m'
            ∧ title m = "Module " +:+ String_of_number (Z.of_nat i + 1) +:+ ": "
                        +:+ title m'
            ∧ description m = description m'
            ∧ topics m = topics m'.
Proof.
  unfold generateMockOutline, Client.generateMockOutline.
  split; [by rewrite !length_fmap |].
  intros i m. rewrite !list_lookup_fmap.
  destruct (seq 0 _ !! i) as [j|] eqn:Hj; [| done].
  apply lookup_seq in Hj as [-> _]. intros [= <-]. eexists. by cbn.
Qed.

(** ** What the adapter returns *)

Lemma determineCourseCategory_truthy (courseName : string) :
  truthy (determineCourseCategory courseName) = true.
Proof.
  rewrite determineCourseCategory_groups.
  by destruct (matchesb programmingKeywords courseName),
              (matchesb designKeywords courseName),
              (matchesb businessKeywords courseName),
              (matchesb dataScienceKeywords courseName).
Qed.

Lemma buildModule_shape (module m : value) :
  buildModule module = Ok m → adapterModule m.
Proof.
  unfold buildModule, adapterModule.
  destruct module as [| | | | | |fields]; cbn; try discriminate;
    try (intros [= <-]; by eexists _, _, _).
  destruct (lookup_field "topics" fields); cbn; intros [= <-]; by eexists _, _, _.
Qed.

Lemma mapM_buildModule_shape (elems ms : list value) :
  mapM buildModule elems = Ok ms →
  Forall adapterModule ms ∧ length ms = length elems.
Proof.
  revert ms. induction elems as [|e elems IH]; intros ms; cbn [mapM].
  - by intros [= <-].
  - destruct (buildModule e) as [m|] eqn:Hm; [| done].
    destruct (mapM buildModule elems) as [ms'|]; [| done].
    intros [= <-]. destruct (IH ms' eq_refl) as [Hall Hlen].
    split; [constructor; eauto using buildModule_shape | cbn; by rewrite Hlen].
Qed.

Lemma buildCourse_shape (courseData v : value)
    (courseName : string) (duration : Z) (difficulty : string) :
  buildCourse courseData courseName duration difficulty = Ok v →
  ∃ ctitle cdescription ccategory modules,
    v = VObj [ ("title", ctitle); ("description", cdescription);
               ("duration", VNum duration); ("difficulty", VStr difficulty);
               ("category", ccategory); ("outline", VArr modules) ]
    ∧ truthy ctitle = true ∧ truthy cdescription = true ∧ truthy ccategory = true
    ∧ Forall adapterModule modules.
Proof.
  unfold buildCourse.
  destruct courseData as [| | | | | |fields]; cbn; try discriminate.
  destruct (truthy (lookup_field "title" fields)) eqn:Ht; [| done].
  destruct (truthy (lookup_field "description" fields)) eqn:Hd; [| done].
  destruct (lookup_field "outline" fields) as [| | | | |elems|]; cbn;
    rewrite ?orb_true_r; try discriminate.
  destruct (mapM buildModule elems) as [ms|] eqn:Hms; [| done].
  cbn. intros [= <-]. eexists _, _, _, _. split; [reflexivity |].
  repeat split; [done | done | | by apply mapM_buildModule_shape in Hms as [? _]].
  destruct (truthy (lookup_field "category" fields)) eqn:Hc; [done |].
  apply determineCourseCategory_truthy.
Qed.

(** X7. Whatever the service answers and whatever [JSON.parse] makes of
    it, a course the adapter returns is an object with a truthy title, a
    truthy description, the duration and the difficulty of the request, a
    truthy category, and an outline whose modules all are objects with a
    title, a description and a sequence of topics. *)
Theorem generateCourseWithGemini_returns
    (generateContent : string → result string) (JSON_parse : string → option value)
    (courseName : string) (duration : Z) (difficulty : string) (v : value) :
  generateCourseWithGemini generateContent JSON_parse courseName duration difficulty = Ok v →
  ∃ ctitle cdescription ccategory modules,
    v = VObj [ ("title", ctitle); ("description", cdescription);
               ("duration", VNum duration); ("difficulty", VStr difficulty);
               ("category", ccategory); ("outline", VArr modules) ]
    ∧ truthy ctitle = true ∧ truthy cdescription = true ∧ truthy ccategory = true
    ∧ Forall adapterModule modules.
Proof.
  unfold generateCourseWithGemini.
  destruct (generateContent _) as [text|]; cbn [result_bind]; [| done].
  destruct (extractJson text) as [jsonStr|]; [| done].
  destruct (JSON_parse jsonStr) as [courseData|]; [| done].
  apply buildCourse_shape.
Qed.

Lemma generateCourseWithGemini_returns_witness :
  ∃ ctitle cdescription ccategory modules,
    VObj [ ("title", VStr "Rocq"); ("description", VStr "Proofs.");
           ("duration", VNum 4); ("difficulty", VStr "beginner");
           ("category", VStr "Other"); ("outline", VArr []) ]
    = VObj [ ("title", ctitle); ("description", cdescription);
             ("duration", VNum 4); ("difficulty", VStr "beginner");
             ("category", ccategory); ("outline", VArr modules) ]
    ∧ truthy ctitle = true ∧ truthy cdescription = true ∧ truthy ccategory = true
    ∧ Forall adapterModule modules.
Proof.
  apply (generateCourseWithGemini_returns
           (fun _ => Ok "{}")
           (fun _ => Some (VObj [ ("title", VStr "Rocq"); ("description", VStr "Proofs.");
                                  ("outline", VArr []) ]))
           "Rocq" 4 "beginner").
  reflexivity.
Defined.

(** ** The generation handler on every request *)

Lemma generateCourse_cases (faults : nat → bool)
    (generateContent : string → result string) (JSON_parse : string → option value)
    (body : GenerateBody) (st : Store) :
  generateCourse faults generateContent JSON_parse body st
  = if generateIncomplete body
    then (failure 400 "Please provide all required fields", st)
    else if faults (ticks st)
    then (failure 500 "Error generating course", tick st)
    else match gen_userId body ≫= (fun id => users st !! id) with
         | None => (failure 404 "User not found", tick st)
         | Some _ =>
             let courseName := default "" (gen_courseName body) in
             let duration := default 0 (gen_duration body) in
             let difficulty := default "" (gen_difficulty body) in
             ({| status := 200; success := true; message := "Data Generated";
                 course :=
                   Some match generateCourseWithGemini generateContent JSON_parse
                                courseName duration difficulty with
                        | Ok generatedCourse => generatedCourse
                        | Throw _ => mockCourse courseName duration difficulty
                        end;
                 courseId := None |}, tick st)
         end.
Proof.
  unfold generateCourse, generateCourse_try, generateIncomplete.
  destruct (gen_courseName body) as [c|], (gen_duration body) as [d|],
    (gen_difficulty body) as [f|]; cbn [truthy option_truthy negb orb default];
    rewrite ?orb_true_r; try reflexivity.
  destruct (negb (truthy c) || negb (truthy d) || negb (truthy f)); [done |].
  unfold bind, User_findById, storeOp.
  destruct (faults (ticks st)); [done |].
  destruct (gen_userId body ≫= _); [| done].
  by destruct (generateCourseWithGemini _ _ _ _ _).
Qed.

(** X8. The generation handler writes nothing: on every request, whatever
    the service, the parser and the stores do, the users, the three
    collections and the journal of create calls are unchanged, and at most
    one store operation (the lookup of the owner) is performed. *)
Theorem generateCourse_writes_nothing (faults : nat → bool)
    (generateContent : string → result string) (JSON_parse : string → option value)
    (body : GenerateBody) (st : Store) :
  let st' := snd (generateCourse faults generateContent JSON_parse body st) in
  sameRecords st st' ∧ (ticks st <= ticks st' <= S (ticks st))%nat.
Proof.
  cbv zeta. rewrite generateCourse_cases.
  destruct (generateIncomplete body);
    [unfold sameRecords; cbn; repeat split; (reflexivity || lia) |].
  destruct (faults (ticks st));
    [unfold sameRecords; cbn; repeat split; (reflexivity || lia) |].
  destruct (gen_userId body ≫= _);
    unfold sameRecords; cbn; repeat split; (reflexivity || lia).
Qed.

(** X9. The status of the generation handler on a request whose topic and
    difficulty, when present, are strings and whose duration, when
    present, is an integer (the requests of [GenerateBody]): 400 when the
    topic, the duration or the difficulty is missing or falsy; otherwise
    500 when the lookup of the owner fails; otherwise 404 when no user has
    the id of the request; otherwise 200.  On these requests the status
    does not depend on the service nor on [JSON.parse], and the answer
    carries a course exactly when the status is 200.  (A topic that is
    not a string is not among these requests: the fallback lowercases the
    topic, which throws on a number.) *)
Theorem generateCourse_status (faults : nat → bool)
    (generateContent : string → result string) (JSON_parse : string → option value)
    (body : GenerateBody) (st : Store) :
  let res := fst (generateCourse faults generateContent JSON_parse body st) in
  status res
  = (if generateIncomplete body then 400
     else if faults (ticks st) then 500
     else match gen_userId body ≫= (fun id => users st !! id) with
          | Some _ => 200
          | None => 404
          end)%nat
  ∧ (is_Some (course res) ↔ status res = 200%nat)
  ∧ success res = bool_decide (status res = 200%nat).
Proof.
  cbv zeta. rewrite generateCourse_cases.
  destruct (generateIncomplete body);
    [cbn; split; [done | split; [split; [by intros [? ?] | done] | done]] |].
  destruct (faults (ticks st));
    [cbn; split; [done | split; [split; [by intros [? ?] | done] | done]] |].
  destruct (gen_userId body ≫= _); cbn;
    (split; [done | split; [split; [by intros [? ?] | done] | done]]).
Qed.

(** ** The save handler on every request *)

Section SaveOutcome.

Variable faults : nat → bool.

Lemma AICourse_create_inv (doc : Course) (createdBy : string) (st st' : Store) (id : nat) :
  AICourse_create faults doc createdBy st = (Ok id, st') →
  ∃ fields, aiCourseSchema doc createdBy = Ok fields
            ∧ id = nextId st ∧ st' = afterAICourse doc createdBy fields st.
Proof.
  unfold AICourse_create, storeOp.
  destruct (aiCourseSchema doc createdBy) as [fields|]; [| done].
  cbn [ticks record_call]. destruct (faults (ticks st)); [done |].
  intros [= <- <-]. by exists fields.
Qed.

Lemma Courses_create_inv (doc : CoursesFields) (st st' : Store) (id : nat) :
  Courses_create faults doc st = (Ok id, st') →
  id = nextId st ∧ st' = afterCourses doc st.
Proof.
  unfold Courses_create, storeOp. cbn [ticks record_call].
  destruct (faults (ticks st)); [done |]. by intros [= <- <-].
Qed.

Lemma Lecture_create_inv (regularCourse : nat) (module : ModuleInput)
    (st st' : Store) (id : nat) :
  Lecture_create faults (lectureOf regularCourse module) st = (Ok id, st') →
  st' = afterLecture regularCourse st module.
Proof.
  unfold Lecture_create, storeOp. cbn [ticks record_call].
  destruct (faults (ticks st)); [done |]. by intros [= <- <-].
Qed.

Lemma lectureLoop_inv (regularCourse : nat) (outline : list ModuleInput)
    (st st' : Store) (u : unit) :
  lectureLoop faults regularCourse outline st = (Ok u, st') →
  st' = foldl (afterLecture regularCourse) st outline.
Proof.
  revert st. induction outline as [|m outline IH]; intros st.
  - by intros [= _ <-].
  - unfold lectureLoop in *. cbn [forEach foldl]. unfold bind at 1 2.
    destruct (Lecture_create faults (lectureOf regularCourse m) st)
      as [[id | e] s1] eqn:Hl; [| done].
    apply Lecture_create_inv in Hl as ->. unfold ret at 1. apply IH.
Qed.

(** The five ways a save can end. *)
Lemma saveCourse_outcome (body : SaveBody) (st : Store) :
  (saveIncomplete body = true
   ∧ saveCourse faults body st = (failure 400 "Please provide all required fields", st))
  ∨ (saveIncomplete body = false ∧ faults (ticks st) = true
     ∧ saveCourse faults body st = (failure 500 "Error saving course", tick st))
  ∨ (saveIncomplete body = false ∧ faults (ticks st) = false
     ∧ save_userId body ≫= (fun id => users st !! id) = None
     ∧ saveCourse faults body st = (failure 404 "User not found", tick st))
  ∨ (saveIncomplete body = false ∧ faults (ticks st) = false
     ∧ is_Some (save_userId body ≫= (fun id => users st !! id))
     ∧ ∃ st', saveCourse faults body st = (failure 500 "Error saving course", st'))
  ∨ (∃ course userId owner fields modules,
       save_course body = Some course ∧ save_userId body = Some userId
       ∧ userId ≠ ""
       ∧ users st !! userId = Some owner
       ∧ aiCourseSchema course userId = Ok fields
       ∧ course_outline course = Some modules
       ∧ saveCourse faults body st
         = (saved (S (nextId st)),
            foldl (afterLecture (S (nextId st)))
              (afterCourses (coursesOf course owner)
                 (afterAICourse course userId fields (tick st))) modules)).
Proof.
  unfold saveCourse, saveCourse_try, saveIncomplete.
  destruct (save_course body) as [course|]; [| by left].
  destruct (save_userId body) as [userId|];
    [| left; by rewrite orb_true_r].
  cbn [truthy option_truthy Course_truthy negb orb mbind option_bind].
  destruct (truthy userId) eqn:Hu; [| by left].
  assert (userId ≠ "") as Hne by (by intros ->).
  cbn [negb]. unfold bind, User_findById, storeOp. cbv beta.
  destruct (faults (ticks st)) eqn:Hf0; [right; by left |].
  cbn [mbind option_bind users tick].
  destruct (users st !! userId) as [owner|] eqn:Ho; [| do 2 right; by left].
  destruct (AICourse_create faults course userId (tick st)) as [[ai | e] s1] eqn:Hai;
    [| do 3 right; left; eauto 10].
  apply AICourse_create_inv in Hai as (fields & Hs & -> & ->).
  destruct (Courses_create faults (coursesOf course owner) _) as [[rc | e] s2] eqn:Hrc;
    [| do 3 right; left; eauto 10].
  apply Courses_create_inv in Hrc as (-> & ->).
  destruct (course_outline course) as [modules|] eqn:Hout;
    [| do 3 right; left; eauto 10].
  change (forEach modules _) with (lectureLoop faults
    (nextId (afterAICourse course userId fields (tick st))) modules).
  destruct (lectureLoop faults _ modules _) as [[u | e] s3] eqn:Hloop;
    [| do 3 right; left; eauto 10].
  apply lectureLoop_inv in Hloop as ->.
  do 4 right. by exists course, userId, owner, fields, modules.
Qed.

End SaveOutcome.

(** X10. The save handler rejects a request before anything is written:
    it answers 400 exactly when the course or the owner id is missing or
    falsy, and 404 exactly when both are there, the lookup of the owner
    succeeds and finds no user; in both cases the users, the collections
    and the journal of create calls are unchanged. The status is one of
    201, 400, 404 and 500, and the answer carries an identifier exactly
    when the status is 201. *)
Theorem saveCourse_rejections (faults : nat → bool) (body : SaveBody) (st : Store) :
  let res := fst (saveCourse faults body st) in
  let st' := snd (saveCourse faults body st) in
  (status res = 400%nat ↔ saveIncomplete body = true)
  ∧ (status res = 404%nat ↔
       saveIncomplete body = false ∧ faults (ticks st) = false
       ∧ save_userId body ≫= (fun id => users st !! id) = None)
  ∧ (status res = 400%nat ∨ status res = 404%nat → sameRecords st st')
  ∧ status res ∈ [201; 400; 404; 500]%nat
  ∧ (is_Some (courseId res) ↔ status res = 201%nat).
Proof.
  cbv zeta.
  destruct (saveCourse_outcome faults body st)
    as [(Hi & ->) | [(Hi & Hf & ->) | [(Hi & Hf & Hu & ->)
        | [(Hi & Hf & [owner Hu] & st' & ->)
        | (c & u & o & f & ms & Hc & Hu & Hne & Ho & _ & _ & ->)]]]];
    cbn [fst snd status courseId failure saved].
  1-4: rewrite Hi, ?Hf, ?Hu.
  5: unfold saveIncomplete; rewrite Hc, Hu; cbn;
     rewrite (truthy_string _ Hne), Ho; cbn.
  all: rewrite is_Some_alt, !elem_of_cons; unfold sameRecords; cbn.
  all: intuition congruence.
Qed.

(** X11. An answer 201 is never given for a course that is not there:
    when the save handler answers 201, the identifier of the answer is
    that of the generic-course record the handler has just written, and
    the AI-course record and one lecture per module of the outline, each
    holding that identifier, have been written too. *)
Theorem saveCourse_created (faults : nat → bool) (body : SaveBody) (st : Store) :
  let res := fst (saveCourse faults body st) in
  let st' := snd (saveCourse faults body st) in
  status res = 201%nat →
  let regularCourse := S (nextId st) in
  courseId res = Some regularCourse
  ∧ ∃ curriculum userId owner fields modules,
      save_course body = Some curriculum
      ∧ save_userId body = Some userId
      ∧ users st !! userId = Some owner
      ∧ course_outline curriculum = Some modules
      ∧ aiCourses st' = (aiCourses st ++ [(nextId st, fields)])%list
      ∧ courses st' = (courses st ++ [(regularCourse, coursesOf curriculum owner)])%list
      ∧ lectures st'
        = (lectures st
           ++ imap (fun i m => ((nextId st + 2 + i)%nat, lectureOf regularCourse m))
                modules)%list.
Proof.
  cbv zeta.
  destruct (saveCourse_outcome faults body st)
    as [(Hi & ->) | [(Hi & Hf & ->) | [(Hi & Hf & Hu & ->)
        | [(Hi & Hf & Hu & st' & ->) | (c & u & o & f & ms & Hc & Hu & Hne & Ho & Hs & Hout & ->)]]]];
    cbn [fst snd status failure saved]; try discriminate.
  intros _. split; [done |].
  exists c, u, o, f, ms.
  destruct (foldl_afterLecture (S (nextId st)) ms
              (afterCourses (coursesOf c o) (afterAICourse c u f (tick st))))
    as (_ & Ha & Hco & Hl & _ & _ & _).
  rewrite Ha, Hco, Hl. cbn.
  repeat (split; [done |]).
  f_equal. apply imap_ext. intros i m _. cbn. f_equal. lia.
Qed.

Lemma saveCourse_created_witness :
  courseId (fst (saveCourse (fun _ => false)
                   {| save_course := Some sampleCourse; save_userId := Some sampleUserId |}
                   sampleStore))
  = Some 101%nat.
Proof.
  refine (proj1 (saveCourse_created (fun _ => false)
                   {| save_course := Some sampleCourse; save_userId := Some sampleUserId |}
                   sampleStore _)).
  reflexivity.
Defined.

(** ** What the schema of the AI-course store accepts *)

Section SchemaInversion.

Lemma truthy_string_inv (s : string) : truthy s = true → s ≠ "".
Proof. by intros H ->. Qed.

Lemma requiredString_inv (path : string) (o : option string) (s : string) :
  requiredString path o = Ok s → o = Some s ∧ s ≠ "".
Proof.
  unfold requiredString. destruct o as [x|]; [| done].
  destruct (truthy x) eqn:Hx; [| done].
  intros [= <-]. split; [done | by apply truthy_string_inv].
Qed.

Lemma mapM_requiredString_inv (path : string) (ts ts' : list string) :
  mapM (fun t => requiredString path (Some t)) ts = Ok ts' →
  Forall (fun t => t ≠ "") ts ∧ ts' = ts.
Proof.
  revert ts'. induction ts as [|t ts IH]; intros ts'; cbn [mapM].
  - by intros [= <-].
  - destruct (requiredString path (Some t)) as [x|] eqn:Hx; [| done].
    destruct (mapM _ ts) as [xs|]; [| done].
    intros [= <-]. apply requiredString_inv in Hx as [[= <-] Hne].
    destruct (IH xs eq_refl) as [Hall ->]. split; [by constructor | done].
Qed.

Lemma aiCourseModuleSchema_inv (m : ModuleInput) (fields : AIModuleFields) :
  aiCourseModuleSchema m = Ok fields →
  wellFormedModule m
  ∧ module_title m = Some (sub_title fields)
  ∧ module_description m = Some (sub_description fields)
  ∧ sub_topics fields = default [] (module_topics m).
Proof.
  unfold aiCourseModuleSchema.
  destruct (requiredString "outline.title" _) as [t|] eqn:Ht; [| done].
  destruct (requiredString "outline.description" _) as [d|] eqn:Hd; [| done].
  cbn [result_bind].
  destruct (mapM _ _) as [ts|] eqn:Hts; [| done].
  cbn [result_bind]. intros [= <-]. cbn.
  apply requiredString_inv in Ht as [Ht Htne], Hd as [Hd Hdne].
  apply mapM_requiredString_inv in Hts as [Hall ->].
  repeat split; eauto.
  intros ts Hsome. by rewrite Hsome in Hall.
Qed.

Lemma mapM_aiCourseModuleSchema_inv (ms : list ModuleInput) (docs : list AIModuleFields) :
  mapM aiCourseModuleSchema ms = Ok docs →
  Forall wellFormedModule ms ∧ length docs = length ms.
Proof.
  revert docs. induction ms as [|m ms IH]; intros docs; cbn [mapM].
  - by intros [= <-].
  - destruct (aiCourseModuleSchema m) as [x|] eqn:Hx; [| done].
    destruct (mapM _ ms) as [xs|]; [| done].
    intros [= <-]. apply aiCourseModuleSchema_inv in Hx as [Hm _].
    destruct (IH xs eq_refl) as [Hall Hlen].
    split; [by constructor | cbn; by rewrite Hlen].
Qed.

Lemma enumString_inv (path : string) (allowed : list string) (dflt : string)
    (o : option string) (s : string) :
  enumString path allowed dflt o = Ok s →
  s = default dflt o ∧ (∀ d, o = Some d → d ∈ allowed).
Proof.
  unfold enumString. destruct o as [x|]; [| by intros [= <-]].
  destruct (bool_decide (x ∈ allowed)) eqn:Hx; [| done].
  intros [= <-]. split; [done |]. intros d [= <-]. by apply bool_decide_eq_true in Hx.
Qed.

Lemma aiCourseSchema_inv (c : Course) (userId : string) (fields : AICourseFields) :
  aiCourseSchema c userId = Ok fields →
  userId ≠ "" ∧ wellFormedCurriculum c
  ∧ course_title c = Some (ai_title fields)
  ∧ course_description c = Some (ai_description fields)
  ∧ course_duration c = Some (ai_duration fields)
  ∧ course_category c = Some (ai_category fields)
  ∧ ai_difficulty fields = default "beginner" (course_difficulty c)
  ∧ ai_image fields = default "default_course.jpg" (course_image c)
  ∧ ai_price fields = default 0 (course_price c)
  ∧ ai_isAIGenerated fields = default true (course_isAIGenerated c)
  ∧ ai_createdBy fields = userId
  ∧ length (ai_outline fields) = length (default [] (course_outline c)).
Proof.
  unfold aiCourseSchema.
  destruct (requiredString "title" _) as [t|] eqn:Ht; [| done].
  destruct (requiredString "description" _) as [d|] eqn:Hd; [| done].
  cbn [result_bind].
  destruct (course_duration c) as [n|] eqn:Hn; [| done].
  cbn [requiredNumber result_bind].
  destruct (enumString _ _ _ _) as [level|] eqn:Hl; [| done].
  destruct (requiredString "category" _) as [k|] eqn:Hk; [| done].
  cbn [result_bind].
  destruct (mapM aiCourseModuleSchema _) as [docs|] eqn:Hdocs; [| done].
  destruct (requiredString "createdBy" _) as [o|] eqn:Ho; [| done].
  cbn [result_bind]. intros [= <-]. cbn.
  apply requiredString_inv in Ht as [Ht Htne], Hd as [Hd Hdne],
    Hk as [Hk Hkne], Ho as [[= <-] Hone].
  apply enumString_inv in Hl as [-> Hlevel].
  apply mapM_aiCourseModuleSchema_inv in Hdocs as [Hall Hlen].
  repeat split; eauto.
  intros ms Hms. by rewrite Hms in Hall.
Qed.

Lemma or_else_price (o : option Z) : or_else o 0 = default 0 o.
Proof.
  destruct o as [p|]; [| done]. unfold or_else, truthy, number_truthy. cbn.
  by destruct (Z.eqb_spec p 0).
Qed.

Lemma or_else_image (o : option string) :
  or_else o "default_course.jpg" ≠ ""
  ∧ (o ≠ Some "" → or_else o "default_course.jpg" = default "default_course.jpg" o).
Proof.
  destruct o as [s|]; [| done]. unfold or_else. cbn.
  destruct (truthy s) eqn:Hs.
  - split; [by apply truthy_string_inv | done].
  - split; [done |]. intros Hne. exfalso. apply Hne. f_equal.
    unfold truthy, string_truthy in Hs. by destruct (String.eqb_spec s "").
Qed.

End SchemaInversion.

Section StoredOutline.

Lemma aiCourseModuleSchema_stored (m : ModuleInput) (fields : AIModuleFields) :
  aiCourseModuleSchema m = Ok fields → storedModule m fields.
Proof.
  unfold aiCourseModuleSchema, storedModule.
  destruct (requiredString "outline.title" _) as [t|] eqn:Ht; [| done].
  destruct (requiredString "outline.description" _) as [d|] eqn:Hd; [| done].
  cbn [result_bind].
  destruct (mapM _ _) as [ts|] eqn:Hts; [| done].
  cbn [result_bind]. intros [= <-]. cbn.
  apply requiredString_inv in Ht as [Ht Htne], Hd as [Hd Hdne].
  apply mapM_requiredString_inv in Hts as [Hall ->].
  repeat split; done.
Qed.

Lemma mapM_aiCourseModuleSchema_stored (ms : list ModuleInput)
    (docs : list AIModuleFields) :
  mapM aiCourseModuleSchema ms = Ok docs → Forall2 storedModule ms docs.
Proof.
  revert docs. induction ms as [|m ms IH]; intros docs; cbn [mapM].
  - intros [= <-]. constructor.
  - destruct (aiCourseModuleSchema m) as [x|] eqn:Hx; [| done].
    destruct (mapM _ ms) as [xs|]; [| done].
    intros [= <-]. constructor; [by apply aiCourseModuleSchema_stored | by apply IH].
Qed.

Lemma aiCourseSchema_outline (c : Course) (userId : string) (fields : AICourseFields) :
  aiCourseSchema c userId = Ok fields →
  mapM aiCourseModuleSchema (default [] (course_outline c)) = Ok (ai_outline fields).
Proof.
  unfold aiCourseSchema.
  destruct (requiredString "title" _) as [t|]; [| done].
  destruct (requiredString "description" _) as [d|]; [| done].
  cbn [result_bind].
  destruct (course_duration c) as [n|]; [| done].
  cbn [requiredNumber result_bind].
  destruct (enumString _ _ _ _) as [level|]; [| done].
  destruct (requiredString "category" _) as [k|]; [| done].
  cbn [result_bind].
  destruct (mapM aiCourseModuleSchema _) as [docs|]; [| done].
  destruct (requiredString "createdBy" _) as [o|]; [| done].
  cbn [result_bind]. by intros [= <-].
Qed.

End StoredOutline.

(** X13. What the schema of the AI-course store has accepted.  A course
    that the schema accepts, for whatever owner id, has a title, a
    description and a category, none of them empty, a duration, a
    difficulty that is absent or one of beginner, intermediate, advanced,
    and an owner id that is not empty; and the outline of the stored
    record is the outline of the course, module by module: the same
    non-empty title, the same non-empty description and the same topics,
    none of them empty.  These conditions are necessary ones: the cast of
    the owner id to an ObjectId is not among the checks of
    [aiCourseSchema], and a schema that also casts accepts fewer
    courses, all of them covered here. *)
Theorem aiCourseSchema_accepted (c : Course) (userId : string)
    (fields : AICourseFields) :
  aiCourseSchema c userId = Ok fields →
  userId ≠ ""
  ∧ wellFormedCurriculum c
  ∧ ai_title fields ≠ "" ∧ ai_description fields ≠ "" ∧ ai_category fields ≠ ""
  ∧ Forall2 storedModule (default [] (course_outline c)) (ai_outline fields).
Proof.
  intros H.
  pose proof (aiCourseSchema_outline _ _ _ H) as Hout.
  apply mapM_aiCourseModuleSchema_stored in Hout.
  apply aiCourseSchema_inv in H as (Hu & Hwf & Ht & Hd & _ & Hk & _).
  destruct Hwf as ((t & Ht' & Htne) & (d & Hd' & Hdne) & Hn & Hl & (k & Hk' & Hkne) & Hms).
  repeat split; try done; eauto.
  - rewrite Ht in Ht'. by injection Ht' as ->.
  - rewrite Hd in Hd'. by injection Hd' as ->.
  - rewrite Hk in Hk'. by injection Hk' as ->.
Qed.

Lemma aiCourseSchema_accepted_witness :
  ∃ fields, aiCourseSchema sampleCourse sampleUserId = Ok fields
            ∧ Forall2 storedModule (default [] (course_outline sampleCourse))
                (ai_outline fields).
Proof.
  eexists. split; [reflexivity |].
  refine (proj2 (proj2 (proj2 (proj2 (proj2
    (aiCourseSchema_accepted sampleCourse sampleUserId _ _)))))).
  reflexivity.
Defined.

(** X14. The two records of a saved course agree. When the schema accepts
    a course, the AI-course record holds the title, the description, the
    duration and the category of the course, the owner id, one module per
    module of the outline, and the defaults of the schema for the fields
    the course does not have (beginner, default_course.jpg, 0, true); the
    generic-course record built from the same course has the same price,
    an image that is never empty, and the same image unless the course
    came with an empty one. *)
Theorem aiCourseSchema_record (c : Course) (userId : string) (owner : User)
    (fields : AICourseFields) :
  aiCourseSchema c userId = Ok fields →
  let doc := coursesOf c owner in
  c_title doc = Some (ai_title fields)
  ∧ c_description doc = Some (ai_description fields)
  ∧ c_duration doc = Some (ai_duration fields)
  ∧ c_category doc = Some (ai_category fields)
  ∧ c_price doc = ai_price fields
  ∧ c_image doc ≠ ""
  ∧ (course_image c ≠ Some "" → c_image doc = ai_image fields)
  ∧ ai_createdBy fields = userId
  ∧ ai_difficulty fields ∈ ["beginner"; "intermediate"; "advanced"]
  ∧ ai_difficulty fields = default "beginner" (course_difficulty c)
  ∧ ai_image fields = default "default_course.jpg" (course_image c)
  ∧ ai_price fields = default 0 (course_price c)
  ∧ ai_isAIGenerated fields = default true (course_isAIGenerated c)
  ∧ length (ai_outline fields) = length (default [] (course_outline c)).
Proof.
  intros H. cbv zeta.
  apply aiCourseSchema_inv in H
    as (_ & Hwf & Ht & Hd & Hn & Hk & Hl & Hi & Hp & Hg & Ho & Hlen).
  destruct Hwf as (_ & _ & _ & Hlevel & _).
  destruct (or_else_image (course_image c)) as [Himg Himg'].
  cbn [coursesOf c_title c_description c_duration c_category c_price c_image].
  rewrite or_else_price, Hp, Hi.
  repeat split; try done; try (by auto).
  rewrite Hl. destruct (course_difficulty c) as [d|]; cbn; [by apply Hlevel |].
  repeat constructor.
Qed.

Lemma aiCourseSchema_record_witness :
  c_price (coursesOf sampleCourse sampleOwner) = 0
  ∧ c_image (coursesOf sampleCourse sampleOwner) = "default_course.jpg".
Proof.
  pose proof (aiCourseSchema_record sampleCourse sampleUserId sampleOwner _ eq_refl) as H.
  cbv zeta in H. destruct H as (_ & _ & _ & _ & Hp & _ & Hi & _).
  split; [exact Hp | apply Hi; discriminate].
Defined.

(** ** Saving the mock course *)

Section MockCourse.

Lemma app_nonempty_l (s t : string) : s ≠ "" → s +:+ t ≠ "".
Proof. destruct s; [done |]. by rewrite app_cons. Qed.

Lemma app_nonempty_r (s t : string) : t ≠ "" → s +:+ t ≠ "".
Proof. destruct s as [|c s]; [done |]. by rewrite app_cons. Qed.

Lemma Course_json_mock (courseName : string) (duration : Z) (difficulty : string) :
  Course_json (mockCourseInput courseName duration difficulty)
  = mockCourse courseName duration difficulty.
Proof.
  unfold Course_json, mockCourseInput, mockCourse. cbn.
  by rewrite <- list_fmap_compose.
Qed.

Lemma mockModules_wellFormed (courseName : string) (duration : Z) (difficulty : string) :
  Forall wellFormedModule
    (Module_input <$> generateMockOutline courseName duration difficulty).
Proof.
  unfold generateMockOutline. rewrite <- list_fmap_compose.
  apply Forall_fmap, Forall_forall. intros i _. cbn.
  split; [| split].
  - eexists. split; [reflexivity |]. by apply app_nonempty_l.
  - eexists. split; [reflexivity |]. by apply app_nonempty_l.
  - intros ts [= <-]. unfold generateTopics.
    apply Forall_fmap, Forall_forall. intros j _. cbn.
    apply app_nonempty_r. by apply app_nonempty_l.
Qed.

Lemma mockCourseInput_wellFormed (courseName : string) (duration : Z) (difficulty : string) :
  courseName ≠ "" →
  difficulty ∈ ["beginner"; "intermediate"; "advanced"] →
  wellFormedCurriculum (mockCourseInput courseName duration difficulty).
Proof.
  intros Hc Hd. unfold wellFormedCurriculum, mockCourseInput. cbn.
  split; [by eexists |]. split.
  { eexists. split; [reflexivity |]. by apply app_nonempty_l. }
  split; [by eexists |]. split; [by intros d [= <-] |]. split.
  { eexists. split; [reflexivity |].
    apply truthy_string_inv, determineCourseCategory_truthy. }
  intros ms [= <-]. apply mockModules_wellFormed.
Qed.

Lemma mockCourseInput_rejected (courseName : string) (duration : Z)
    (difficulty userId : string) :
  courseName ≠ "" →
  difficulty ∉ ["beginner"; "intermediate"; "advanced"] →
  aiCourseSchema (mockCourseInput courseName duration difficulty) userId
  = Throw (ValidationError "difficulty").
Proof.
  intros Hc Hd. unfold aiCourseSchema.
  cbn [mockCourseInput course_title course_description course_duration
       course_difficulty].
  rewrite (requiredString_ok "title") by done.
  rewrite (requiredString_ok "description") by (by apply app_nonempty_l).
  cbn [result_bind requiredNumber enumString]. by rewrite bool_decide_eq_false_2.
Qed.

Lemma saveCourse_schema_rejects (faults : nat → bool) (body : SaveBody) (st : Store)
    (course : Course) (userId : string) (owner : User) (e : exn) :
  save_course body = Some course →
  save_userId body = Some userId → userId ≠ "" →
  users st !! userId = Some owner →
  faults (ticks st) = false →
  aiCourseSchema course userId = Throw e →
  saveCourse faults body st
  = (failure 500 "Error saving course",
     afterFailed (AICourse_create_call course userId) (tick st)).
Proof.
  intros Hc Hu Hne Ho Hf He. unfold saveCourse, saveCourse_try.
  rewrite Hc, Hu, (truthy_string _ Hne). cbn [truthy Course_truthy negb orb].
  unfold bind at 1. rewrite (User_findById_ok _ _ _ Hf). cbn [mbind option_bind].
  rewrite Ho. cbv beta iota. unfold bind at 1.
  by rewrite (AICourse_create_invalid faults course userId e (tick st) He).
Qed.

End MockCourse.

(** X15. Saving the mock course of the generation handler. The course the
    handler sends when the service fails, posted back for an existing
    owner while the stores accept the writes, is saved with the answer
    201 and one lecture per module when its difficulty is beginner,
    intermediate or advanced; with any other difficulty, which the
    generation handler lets through, the AI-course store rejects it, the
    answer is 500 and nothing is written. *)
Theorem mockCourse_save (faults : nat → bool) (st : Store)
    (courseName : string) (duration : Z) (difficulty userId : string) (owner : User) :
  courseName ≠ "" →
  userId ≠ "" →
  users st !! userId = Some owner →
  (∀ n, (n < 10)%nat → faults (ticks st + n)%nat = false) →
  let body := {| save_course := Some (mockCourseInput courseName duration difficulty);
                 save_userId := Some userId |} in
  let res := fst (saveCourse faults body st) in
  let st' := snd (saveCourse faults body st) in
  Course_json (mockCourseInput courseName duration difficulty)
  = mockCourse courseName duration difficulty
  ∧ (difficulty ∈ ["beginner"; "intermediate"; "advanced"] →
     status res = 201%nat
     ∧ length (lectures st')
       = (length (lectures st) + Z.to_nat (moduleCount duration))%nat)
  ∧ (difficulty ∉ ["beginner"; "intermediate"; "advanced"] →
     status res = 500%nat
     ∧ aiCourses st' = aiCourses st ∧ courses st' = courses st
     ∧ lectures st' = lectures st).
Proof.
  intros Hc Hu Ho Hf. cbv zeta.
  assert (Hf0 : faults (ticks st) = false).
  { rewrite <- (Hf 0%nat), Nat.add_0_r; [done | lia]. }
  assert (Hf1 : faults (S (ticks st)) = false).
  { rewrite <- (Hf 1%nat); [f_equal; lia | lia]. }
  split; [apply Course_json_mock |]. split.
  - intros Hd.
    destruct (aiCourseSchema_accepts _ userId Hu
                (mockCourseInput_wellFormed courseName duration difficulty Hc Hd))
      as [fields Hs].
    rewrite (saveCourse_success faults
               {| save_course := Some (mockCourseInput courseName duration difficulty);
                  save_userId := Some userId |} st
               (mockCourseInput courseName duration difficulty) userId owner fields
               eq_refl eq_refl Hu Ho Hs Hf0 Hf1
               (Module_input <$> generateMockOutline courseName duration difficulty)
               eq_refl).
    2: { intros n Hn. apply Hf.
         rewrite length_fmap, generateMockOutline_length in Hn.
         destruct (moduleCount_range duration) as (_ & _ & Hmax). lia. }
    cbn [fst snd status saved]. split; [done |].
    destruct (foldl_afterLecture (S (nextId st))
                (Module_input <$> generateMockOutline courseName duration difficulty)
                (afterCourses
                   (coursesOf (mockCourseInput courseName duration difficulty) owner)
                   (afterAICourse (mockCourseInput courseName duration difficulty)
                      userId fields (tick st))))
      as (_ & _ & _ & Hl & _).
    rewrite Hl. cbn [lectures afterCourses afterAICourse insert_course insert_aiCourse
                     tick record_call].
    by rewrite length_app, length_imap, length_fmap, generateMockOutline_length.
  - intros Hd.
    rewrite (saveCourse_schema_rejects faults
               {| save_course := Some (mockCourseInput courseName duration difficulty);
                  save_userId := Some userId |} st
               (mockCourseInput courseName duration difficulty) userId owner _
               eq_refl eq_refl Hu Ho Hf0
               (mockCourseInput_rejected courseName duration difficulty userId Hc Hd)).
    by cbn.
Qed.

Lemma mockCourse_save_witness :
  status (fst (saveCourse (fun _ => false)
                 {| save_course := Some (mockCourseInput "Rocq" 4 "expert");
                    save_userId := Some sampleUserId |} sampleStore))
  = 500%nat.
Proof.
  refine (proj1 (proj2 (proj2 (mockCourse_save (fun _ => false) sampleStore
                                 "Rocq" 4 "expert" sampleUserId sampleOwner
                                 _ _ eq_refl _)) _)).
  - discriminate.
  - discriminate.
  - reflexivity.
  - intros H. repeat (apply elem_of_cons in H as [H | H]; [discriminate H |]).
    by apply elem_of_nil in H.
Defined.

(** ** The client component *)

Lemma generateCourseWithGemini_truthy
    (generateContent : string → result string) (JSON_parse : string → option value)
    (courseName : string) (duration : Z) (difficulty : string) (v : value) :
  generateCourseWithGemini generateContent JSON_parse courseName duration difficulty = Ok v →
  truthy v = true.
Proof.
  unfold generateCourseWithGemini.
  destruct (generateContent _) as [text|]; cbn [result_bind]; [| done].
  destruct (extractJson text) as [jsonStr|]; [| done].
  destruct (JSON_parse jsonStr) as [courseData|]; [| done].
  intros H. by apply buildCourse_shape in H as (? & ? & ? & ? & -> & _).
Qed.

(** X16. The form always ends with a course. With an empty topic the
    component shows an error and sends nothing. Otherwise, whether the
    request is lost, rejected or answered, the component ends with a
    generated course that the save button will send, no longer loading,
    and one success toast: the course of the answer when the controller
    answers 200, the mock course of the client in every other case; and
    the stores of the server are not written. *)
Theorem handleSubmit_outcome (reachable : bool) (faults : nat → bool)
    (generateContent : string → result string) (JSON_parse : string → option value)
    (userId : string) (ui : Client.State) (st : Store) :
  let server := serveGenerate reachable faults generateContent JSON_parse in
  let body := {| gen_courseName := Some (Client.courseName ui);
                 gen_duration := Some (Client.duration ui);
                 gen_difficulty := Some (Client.difficulty ui);
                 gen_userId := Some userId |} in
  let answer := fst (generateCourse faults generateContent JSON_parse body st) in
  let ui' := fst (Client.handleSubmit server userId ui st) in
  let st' := snd (Client.handleSubmit server userId ui st) in
  (Client.courseName ui = ""
   ∧ ui' = Client.toast (Client.toast_error "Please enter a course name") ui
   ∧ st' = st)
  ∨ (Client.courseName ui ≠ ""
     ∧ truthy (Client.generatedCourse ui') = true
     ∧ Client.loading ui' = false
     ∧ Client.toasts ui'
       = (Client.toasts ui ++ [Client.toast_success "Course generated successfully!"])%list
     ∧ sameRecords st st'
     ∧ Client.generatedCourse ui'
       = if reachable && bool_decide (status answer = 200%nat)
         then course answer
         else Some (Client.generateMockCourse ui)).
Proof.
  cbv zeta. unfold Client.handleSubmit.
  destruct (truthy (Client.courseName ui)) eqn:Hname; cbn [negb].
  2: { left. unfold truthy, string_truthy in Hname.
       by destruct (String.eqb_spec (Client.courseName ui) ""). }
  right. split; [by apply truthy_string_inv |].
  unfold serveGenerate. cbn [Client.setLoading Client.courseName Client.duration
                             Client.difficulty].
  destruct reachable; cbn [andb].
  2: { cbn. unfold sameRecords. repeat split; by eauto. }
  rewrite generateCourse_cases. unfold generateIncomplete.
  cbn [gen_courseName gen_duration gen_difficulty gen_userId truthy option_truthy].
  destruct (negb (truthy (Client.courseName ui)) || negb (truthy (Client.duration ui))
            || negb (truthy (Client.difficulty ui)));
    [| destruct (faults (ticks st)); [| destruct (Some userId ≫= _)]];
    cbn; unfold sameRecords; repeat split; try done;
    try (case_bool_decide; (done || discriminate)).
  destruct (generateCourseWithGemini _ _ _ _ _) as [v|] eqn:Hv; [| done].
  by apply generateCourseWithGemini_truthy in Hv.
Qed.

(** X17. The component goes to the page of a course only after a save that
    was answered with a 2xx status. Without a generated course nothing
    happens. Otherwise the request is sent, the component is no longer
    loading afterwards, and either the answer has a 2xx status, a success
    toast is shown and the window is sent to the page of the identifier of
    the answer, or the address of the window is unchanged and an error
    toast with a non-empty message is shown. *)
Theorem handleSaveCourse_outcome {W : Type}
    (post_save : value → string → W → option Response * W)
    (userId : string) (ui : Client.State) (w : W) :
  let reply :=
    fst (post_save (default VUndefined (Client.generatedCourse ui)) userId w) in
  let ui' := fst (Client.handleSaveCourse post_save userId ui w) in
  let w' := snd (Client.handleSaveCourse post_save userId ui w) in
  (truthy (Client.generatedCourse ui) = false ∧ ui' = ui ∧ w' = w)
  ∨ (truthy (Client.generatedCourse ui) = true
     ∧ Client.loading ui' = false
     ∧ Client.generatedCourse ui' = Client.generatedCourse ui
     ∧ ((∃ data, reply = Some data
                 ∧ (200 <= status data < 300)%nat
                 ∧ Client.location ui'
                   = Some ("/course/" +:+ Client.idString (courseId data))
                 ∧ Client.toasts ui'
                   = (Client.toasts ui
                      ++ [Client.toast_success "Course saved successfully!"])%list)
        ∨ (Client.location ui' = Client.location ui
           ∧ (∀ data, reply = Some data → ¬ (200 <= status data < 300)%nat)
           ∧ ∃ shown, shown ≠ ""
                      ∧ Client.toasts ui'
                        = (Client.toasts ui ++ [Client.toast_error shown])%list))).
Proof.
  cbv zeta. unfold Client.handleSaveCourse.
  destruct (truthy (Client.generatedCourse ui)) eqn:Hg; cbn [negb]; [| by left].
  right. split; [done |].
  cbn [Client.setLoading Client.generatedCourse].
  destruct (post_save _ userId w) as [[data|] w'] eqn:Hpost; cbn [fst].
  - unfold Client.axios_post.
    destruct ((200 <=? status data)%nat && (status data <? 300)%nat) eqn:Hs.
    + apply andb_true_iff in Hs as [H1%Nat.leb_le H2%Nat.ltb_lt].
      cbn. split; [done |]. split; [done |]. left. by exists data.
    + cbn. split; [done |]. split; [done |]. right. split; [done |]. split.
      * intros d [= <-] [H1 H2].
        apply Nat.leb_le in H1. apply Nat.ltb_lt in H2. by rewrite H1, H2 in Hs.
      * eexists. split; [| reflexivity].
        unfold or_else. destruct (truthy (message data)) eqn:Hm; [| done].
        by apply truthy_string_inv.
  - cbn. split; [done |]. split; [done |]. right. split; [done |].
    split; [done |]. eexists. split; [| reflexivity]. done.
Qed.

(** ** Titles and topics that repeat *)

Lemma getModuleTitle_inj (courseName : string) (i j : nat) :
  (i < 5)%nat → (j < 5)%nat →
  getModuleTitle courseName i = getModuleTitle courseName j → i = j.
Proof.
  intros Hi Hj.
  destruct i as [|[|[|[|[|i]]]]]; try lia;
    destruct j as [|[|[|[|[|j]]]]]; try lia;
    try reflexivity; cbv; intros H; discriminate H.
Qed.

(** X19. The titles of the outline of the client are pairwise distinct
    exactly when the outline has at most 5 modules: from the sixth module
    on, the title of the fifth is repeated. *)
Theorem generateMockOutline_client_titles
    (courseName : string) (duration : Z) (difficulty : string) :
  NoDup (title <$> Client.generateMockOutline courseName duration difficulty)
  ↔ moduleCount duration <= 5.
Proof.
  unfold Client.generateMockOutline. rewrite <- list_fmap_compose.
  destruct (moduleCount_range duration) as (_ & Hmin & _).
  split.
  - intros Hnd. apply Z.le_ngt. intros Hgt.
    assert (4 = 5)%nat as Habs; [| discriminate Habs].
    apply (NoDup_lookup _ 4 5 ("Mastering " +:+ courseName) Hnd);
      rewrite list_lookup_fmap, lookup_seq_lt by lia; reflexivity.
  - intros Hle. apply NoDup_fmap_2_strong; [| apply NoDup_seq].
    intros i j Hi Hj Heq. apply elem_of_seq in Hi, Hj.
    apply (getModuleTitle_inj courseName); [lia | lia | exact Heq].
Qed.

(** X20. The topics of a module are pairwise distinct, whatever the topic
    of the course, the module and the difficulty. *)
Theorem generateTopics_distinct (courseName : string) (i : nat) (difficulty : string) :
  NoDup (generateTopics courseName i difficulty).
Proof.
  rewrite generateTopics_take. unfold topicCountOf, topicPoolOf.
  destruct (String.eqb difficulty "beginner");
    [| destruct (String.eqb difficulty "intermediate")];
    cbn [take fmap list_fmap beginnerTopics intermediateTopics advancedTopics];
    repeat (apply NoDup_cons_2;
            [rewrite ?not_elem_of_cons; repeat split;
             try apply not_elem_of_nil; cbv; intros H; discriminate H |]);
    apply NoDup_nil_2.
Qed.
